(** * universal_train.py: the environment probe and the training run

    A shallow embedding of [src/ml-models/universal_train.py].  The script
    is a straight line of calls into the interpreter, scikit-learn and the
    MLflow client; the embedding keeps that line and makes explicit what the
    Python text leaves implicit: which call may raise, which exception a
    [try]/[except] clause catches, and what a run leaves in the tracking
    store and on the console. *)

From stdpp Require Import base gmap strings list pretty.
From Stdlib Require Import QArith Qround.

Close Scope Q_scope.
Local Open Scope string_scope.
Local Open Scope list_scope.

(** ** Python values and exceptions *)

(** The exception classes that occur.  [ModuleNotFoundError] is a subclass
    of [ImportError], [ConnectionError] of [OSError]. *)
Inductive exn : Type :=
  | ImportError
  | ModuleNotFoundError
  | AttributeError
  | RuntimeError
  | ValueError
  | IndexError
  | KeyError
  | NotFittedError
  | OSError
  | ConnectionError
  | MlflowException.

#[global] Instance exn_eq_dec : EqDecision exn.
Proof. solve_decision. Defined.

(** [isinstance(e, ImportError)], the test of [except ImportError]. *)
Definition isinstance_ImportError (e : exn) : bool :=
  match e with
  | ImportError | ModuleNotFoundError => true
  | _ => false
  end.

(** The values stored in the [env_info] dict. *)
Inductive pyvalue : Type :=
  | PyStr (s : string)
  | PyBool (b : bool)
  | PyNone.

#[global] Instance pyvalue_eq_dec : EqDecision pyvalue.
Proof. solve_decision. Defined.

(** [str(v)], also what an f-string field renders. *)
Definition py_str (v : pyvalue) : string :=
  match v with
  | PyStr s => s
  | PyBool true => "True"
  | PyBool false => "False"
  | PyNone => "None"
  end.

(** Truth value of a list: non-empty. *)
Definition py_truthy_list {A} (l : list A) : bool :=
  match l with [] => false | _ :: _ => true end.

(** ** The numpy random generator

    [check_random_state(seed)]: an int seed makes a fresh generator that
    depends on the seed alone; [None] hands out numpy's process-wide
    generator, whose state is whatever the process left there. *)
Inductive RandomState : Type :=
  | Seeded (seed : Z)
  | GlobalState (state : N).

Definition check_random_state (random_state : option Z) (np_global : N)
  : RandomState :=
  match random_state with
  | Some seed => Seeded seed
  | None => GlobalState np_global
  end.

(** ** The tracking service *)

Inductive run_status : Type := FINISHED | FAILED.

#[global] Instance run_status_eq_dec : EqDecision run_status.
Proof. solve_decision. Defined.

(** The operations of the MLflow client that the script performs. *)
Inductive tracking_op : Type :=
  | SetTrackingUri (uri : string)
  | SetExperiment (name : string)
  | StartRun
  | LogParams
  | LogMetric (key : string)
  | LogModel (artifact_path registered_model_name : string)
  | EndRun (status : run_status).

#[global] Instance tracking_op_eq_dec : EqDecision tracking_op.
Proof. solve_decision. Defined.

(** ** The host: everything outside the script

    One execution runs on one host.  The host fixes what the interpreter
    reports about the platform, how each of the optional-library calls ends
    ([None] / [inr]: normally; [Some e] / [inl e]: by raising [e]), the
    process environment, numpy's global generator and, for each operation
    of the tracking client, whether it fails. *)
Record Host : Type := {
  platform_system : string;
  platform_machine : string;
  platform_python_version : string;
  import_tensorflow : option exn;
  tf_list_physical_devices : exn + list string;
  import_torch : option exn;
  torch_cuda_is_available : exn + bool;
  environ : gmap string string;
  np_random_global : N;
  tracking_service : tracking_op -> option exn;
}.

(** The external calls a run makes, in the order it makes them. *)
Inductive event : Type :=
  | EvImport (module : string)
  | EvListPhysicalDevices (device_type : string)
  | EvCudaIsAvailable
  | EvTracking (op : tracking_op).

#[global] Instance event_eq_dec : EqDecision event.
Proof. solve_decision. Defined.

(** ** scikit-learn

    The numerical routines behind the calls of the script.  Each one is a
    function of its arguments and of the generator it is handed; rows are
    lists of features, labels are class numbers. *)
Class Sklearn : Type := {
  Feature : Type;
  Forest : Type;
  (** [make_classification]: the feature matrix and the label vector. *)
  sk_make_classification :
    forall (n_samples n_features n_informative n_redundant n_classes : nat),
      RandomState -> list (list Feature) * list nat;
  (** [StratifiedShuffleSplit(test_size=n_test, train_size=n_train)]: the
      first pair (train indices, test indices) it yields for labels [y]. *)
  sk_stratified_shuffle_split :
    RandomState -> forall (y : list nat) (n_train n_test : nat),
      list nat * list nat;
  (** Growing the trees of a random forest. *)
  sk_build_forest :
    forall (n_estimators max_depth : nat),
      RandomState -> list (list Feature) -> list nat -> Forest;
  (** The vote of a grown forest on one row. *)
  sk_forest_vote : Forest -> list Feature -> nat;
  (** The text of [classification_report]. *)
  sk_classification_report : list nat -> list nat -> string;
}.

(** What the documentation of the two data routines promises about shapes:
    [make_classification] returns [n_samples] rows and labels, and the
    stratified splitter returns index sets of the requested sizes that
    point into the data. *)
Class SklearnShapes `{Sklearn} : Prop := {
  make_classification_shape :
    forall n_samples n_features n_informative n_redundant n_classes rs,
      let Xy := sk_make_classification n_samples n_features n_informative
                  n_redundant n_classes rs in
      length Xy.1 = n_samples /\ length Xy.2 = n_samples;
  stratified_shuffle_split_shape :
    forall rs y n_train n_test,
      n_train + n_test <= length y ->
      let tt := sk_stratified_shuffle_split rs y n_train n_test in
      length tt.1 = n_train /\ length tt.2 = n_test /\
      Forall (fun i => i < length y) tt.1 /\
      Forall (fun i => i < length y) tt.2;
}.

(** How a call ends. *)
Inductive outcome (A : Type) : Type :=
  | Returns (a : A)
  | Raises (e : exn).
Arguments Returns {A} a.
Arguments Raises {A} e.

Section Script.
Context `{SK : Sklearn}.

(** The estimator object: its constructor arguments and, once fitted, its
    forest. *)
Record RandomForestClassifier : Type := {
  n_estimators : nat;
  max_depth : nat;
  random_state : option Z;
  estimators_ : option Forest;
}.

(** ** The state a run works on *)

(** The tracking client and the store behind it. *)
Record mlflow_store : Type := {
  tracking_uri : option string;
  experiment : option string;
  active_run : bool;
  ended_runs : list run_status;
  params : gmap string string;
  metrics : gmap string Q;
  registered_models : list (string * string * RandomForestClassifier);
}.

Record store : Type := {
  console : list string;
  events : list event;
  mlflow : mlflow_store;
}.

Definition empty_mlflow : mlflow_store :=
  {| tracking_uri := None; experiment := None; active_run := false;
     ended_runs := []; params := ∅; metrics := ∅; registered_models := [] |}.

Definition initial_store : store :=
  {| console := []; events := []; mlflow := empty_mlflow |}.

(** ** The monad of the script: reads the host, updates the store, may raise *)

Definition M (A : Type) : Type := Host -> store -> outcome A * store.

#[global] Instance M_ret : MRet M := fun A a _ s => (Returns a, s).

#[global] Instance M_bind : MBind M := fun A B k m h s =>
  match m h s with
  | (Returns a, s') => k a h s'
  | (Raises e, s') => (Raises e, s')
  end.

Definition raise {A} (e : exn) : M A := fun _ s => (Raises e, s).

(** [try: body  except C: handler], where [catches] decides
    [isinstance(e, C)]; any other exception passes through. *)
Definition try_except {A} (body : M A) (catches : exn -> bool) (handler : M A)
  : M A := fun h s =>
  match body h s with
  | (Returns a, s') => (Returns a, s')
  | (Raises e, s') => if catches e then handler h s' else (Raises e, s')
  end.

Definition ask {A} (f : Host -> A) : M A := fun h s => (Returns (f h), s).

Definition log_event (ev : event) : M unit := fun _ s =>
  (Returns (), {| console := console s; events := events s ++ [ev];
                  mlflow := mlflow s |}).

Definition print (line : string) : M unit := fun _ s =>
  (Returns (), {| console := console s ++ [line]; events := events s;
                  mlflow := mlflow s |}).

(** A host call that raises [e] or returns [a]. *)
Definition of_sum {A} (r : exn + A) : M A :=
  match r with inl e => raise e | inr a => mret a end.

Definition of_failure (r : option exn) : M unit :=
  match r with Some e => raise e | None => mret () end.

(** [d[k]]: [KeyError] when the key is missing. *)
Definition getitem (d : gmap string pyvalue) (k : string) : M pyvalue :=
  match d !! k with Some v => mret v | None => raise KeyError end.

(** ** The optional libraries *)

(** [import tensorflow] / [import torch]. *)
Definition py_import (module : string) : M unit :=
  log_event (EvImport module);;
  if decide (module = "tensorflow") then ask import_tensorflow ≫= of_failure
  else if decide (module = "torch") then ask import_torch ≫= of_failure
  else mret ().

(** [tf.config.list_physical_devices(device_type)] *)
Definition tf_config_list_physical_devices (device_type : string)
  : M (list string) :=
  log_event (EvListPhysicalDevices device_type);;
  ask tf_list_physical_devices ≫= of_sum.

(** [torch.cuda.is_available()] *)
Definition torch_cuda_is_available_call : M bool :=
  log_event EvCudaIsAvailable;;
  ask torch_cuda_is_available ≫= of_sum.

(** ** detect_compute_environment (lines 19-50)

    [env_info] is built once and then updated in place on the two GPU
    branches; the updated dict is threaded through, which is the same as
    the mutation because nothing after an update can raise. *)
Definition detect_compute_environment : M (gmap string pyvalue) :=
  system ← ask platform_system;
  machine ← ask platform_machine;
  python_version ← ask platform_python_version;
  let env_info : gmap string pyvalue :=
    <["gpu_type" := PyNone]>
      (<["gpu_available" := PyBool false]>
         (<["python_version" := PyStr python_version]>
            (<["architecture" := PyStr machine]>
               (<["platform" := PyStr system]> ∅)))) in
  (* Check for GPU availability *)
  try_except
    (py_import "tensorflow";;
     devices ← tf_config_list_physical_devices "GPU";
     if py_truthy_list devices then
       let env_info := <["gpu_available" := PyBool true]> env_info in
       let env_info := <["gpu_type" := PyStr "CUDA"]> env_info in
       print "✅ TensorFlow GPU detected";;
       mret env_info
     else
       print "ℹ️ TensorFlow using CPU";;
       mret env_info)
    isinstance_ImportError
    (try_except
       (py_import "torch";;
        available ← torch_cuda_is_available_call;
        if (available : bool) then
          let env_info := <["gpu_available" := PyBool true]> env_info in
          let env_info := <["gpu_type" := PyStr "CUDA"]> env_info in
          print "✅ PyTorch CUDA detected";;
          mret env_info
        else
          print "ℹ️ PyTorch using CPU";;
          mret env_info)
       isinstance_ImportError
       (print "ℹ️ No GPU ML libraries detected";;
        mret env_info)).

(** ** scikit-learn, as the script calls it *)

(** [make_classification(..., random_state=...)] *)
Definition make_classification
    (n_samples n_features n_informative n_redundant n_classes : nat)
    (random_state : option Z) : M (list (list Feature) * list nat) :=
  np_global ← ask np_random_global;
  mret (sk_make_classification n_samples n_features n_informative n_redundant
          n_classes (check_random_state random_state np_global)).

(** [_validate_shuffle_split] for a float [test_size] and no [train_size]:
    the fraction must lie strictly between 0 and 1, the test part is
    [ceil(test_size * n_samples)], the train part is the rest and must not
    be empty.  [test_size] is the decimal fraction as written in the call. *)
Definition _validate_shuffle_split (n_samples : nat) (test_size : Q)
  : M (nat * nat) :=
  if Qle_bool test_size 0 || Qle_bool 1 test_size then raise ValueError
  else
    let n_test :=
      Z.to_nat (Qceiling (test_size * inject_Z (Z.of_nat n_samples))) in
    let n_train := n_samples - n_test in
    if decide (n_train = 0) then raise ValueError
    else mret (n_train, n_test).

(** [_safe_indexing(a, indices)]: the rows at the indices, [IndexError] for
    an index outside the data. *)
Definition _safe_indexing {A} (a : list A) (indices : list nat) : M (list A) :=
  match mapM (fun i => a !! i) indices with
  | Some rows => mret rows
  | None => raise IndexError
  end.

(** [train_test_split(X, y, test_size=..., random_state=..., stratify=...)]:
    the arrays must have one length; the sizes come from
    [_validate_shuffle_split], the indices from the stratified splitter. *)
Definition train_test_split
    (X : list (list Feature)) (y : list nat) (test_size : Q)
    (random_state : option Z) (stratify : list nat)
  : M (list (list Feature) * list (list Feature) * list nat * list nat) :=
  if negb (bool_decide (length X = length y)) then raise ValueError
  else
    '(n_train, n_test) ← _validate_shuffle_split (length X) test_size;
    np_global ← ask np_random_global;
    let '(train, test) :=
      sk_stratified_shuffle_split (check_random_state random_state np_global)
        stratify n_train n_test in
    X_train ← _safe_indexing X train;
    X_test ← _safe_indexing X test;
    y_train ← _safe_indexing y train;
    y_test ← _safe_indexing y test;
    mret (X_train, X_test, y_train, y_test).

(** [RandomForestClassifier(n_estimators=..., max_depth=..., random_state=...)] *)
Definition new_RandomForestClassifier
    (n_estimators max_depth : nat) (random_state : option Z)
  : RandomForestClassifier :=
  {| n_estimators := n_estimators; max_depth := max_depth;
     random_state := random_state; estimators_ := None |}.

(** [model.fit(X, y)]: the estimator after the call. *)
Definition fit (model : RandomForestClassifier)
    (X : list (list Feature)) (y : list nat) : M RandomForestClassifier :=
  if negb (bool_decide (length X = length y)) then raise ValueError
  else
    np_global ← ask np_random_global;
    mret {| n_estimators := n_estimators model;
            max_depth := max_depth model;
            random_state := random_state model;
            estimators_ :=
              Some (sk_build_forest (n_estimators model) (max_depth model)
                      (check_random_state (random_state model) np_global)
                      X y) |}.

(** [model.predict(X)]: one vote per row. *)
Definition predict (model : RandomForestClassifier) (X : list (list Feature))
  : M (list nat) :=
  match estimators_ model with
  | None => raise NotFittedError
  | Some forest => mret (map (sk_forest_vote forest) X)
  end.

(** The number of positions where prediction and label agree. *)
Definition count_correct (y_true y_pred : list nat) : nat :=
  length (filter (fun p => p.1 = p.2) (zip y_true y_pred)).

(** [accuracy_score(y_true, y_pred)]: the fraction of samples predicted
    correctly; the two vectors must have one length and not be empty.  The
    float the library returns is this quotient rounded. *)
Definition accuracy_score (y_true y_pred : list nat) : M Q :=
  if negb (bool_decide (length y_true = length y_pred)) then raise ValueError
  else if bool_decide (length y_true = 0) then raise ValueError
  else mret (Z.of_nat (count_correct y_true y_pred)
             # Pos.of_nat (length y_true))%Q.

(** [classification_report(y_true, y_pred)] *)
Definition classification_report (y_true y_pred : list nat) : M string :=
  mret (sk_classification_report y_true y_pred).

(** ** The interpreter *)

(** [os.getenv(key, default)] *)
Definition os_getenv (key default_value : string) : M string :=
  env ← ask environ;
  mret (default default_value (env !! key)).

(** [len(a)] as logged for a metric. *)
Definition py_len {A} (a : list A) : Q := inject_Z (Z.of_nat (length a)).

(** Rounding to the nearest integer, ties to even. *)
Definition round_half_even (x : Q) : Z :=
  let f := Qfloor x in
  match (x - inject_Z f ?= 1 # 2)%Q with
  | Lt => f
  | Gt => (f + 1)%Z
  | Eq => if Z.even f then f else (f + 1)%Z
  end.

Definition pad4 (digits : string) : string :=
  match String.length digits with
  | 0 => "0000" +:+ digits
  | 1 => "000" +:+ digits
  | 2 => "00" +:+ digits
  | 3 => "0" +:+ digits
  | _ => digits
  end.

(** The format spec [.4f]. *)
Definition format_4f (x : Q) : string :=
  let n := round_half_even (x * 10000)%Q in
  (if bool_decide (n < 0)%Z then "-" else "")
  +:+ pretty (Z.abs n / 10000)%Z +:+ "." +:+ pad4 (pretty (Z.abs n mod 10000)%Z).

(** ** The MLflow client *)

Definition tracking_call (op : tracking_op) : M unit :=
  log_event (EvTracking op);;
  ask (fun h => tracking_service h op) ≫= of_failure.

Definition update_mlflow (f : mlflow_store -> mlflow_store) : M unit :=
  fun _ s =>
  (Returns (), {| console := console s; events := events s;
                  mlflow := f (mlflow s) |}).

(** [mlflow.set_tracking_uri(uri)] *)
Definition mlflow_set_tracking_uri (uri : string) : M unit :=
  tracking_call (SetTrackingUri uri);;
  update_mlflow (fun m =>
    {| tracking_uri := Some uri; experiment := experiment m;
       active_run := active_run m; ended_runs := ended_runs m;
       params := params m; metrics := metrics m;
       registered_models := registered_models m |}).

(** [mlflow.set_experiment(name)] *)
Definition mlflow_set_experiment (name : string) : M unit :=
  tracking_call (SetExperiment name);;
  update_mlflow (fun m =>
    {| tracking_uri := tracking_uri m; experiment := Some name;
       active_run := active_run m; ended_runs := ended_runs m;
       params := params m; metrics := metrics m;
       registered_models := registered_models m |}).

(** [mlflow.log_params(d)]: every value is stored as its [str]. *)
Definition mlflow_log_params (d : gmap string pyvalue) : M unit :=
  tracking_call LogParams;;
  update_mlflow (fun m =>
    {| tracking_uri := tracking_uri m; experiment := experiment m;
       active_run := active_run m; ended_runs := ended_runs m;
       params := (py_str <$> d) ∪ params m; metrics := metrics m;
       registered_models := registered_models m |}).

(** [mlflow.log_metric(key, value)] *)
Definition mlflow_log_metric (key : string) (value : Q) : M unit :=
  tracking_call (LogMetric key);;
  update_mlflow (fun m =>
    {| tracking_uri := tracking_uri m; experiment := experiment m;
       active_run := active_run m; ended_runs := ended_runs m;
       params := params m; metrics := <[key := value]> (metrics m);
       registered_models := registered_models m |}).

(** [mlflow.sklearn.log_model(model, artifact_path, registered_model_name=...)] *)
Definition mlflow_sklearn_log_model (model : RandomForestClassifier)
    (artifact_path registered_model_name : string) : M unit :=
  tracking_call (LogModel artifact_path registered_model_name);;
  update_mlflow (fun m =>
    {| tracking_uri := tracking_uri m; experiment := experiment m;
       active_run := active_run m; ended_runs := ended_runs m;
       params := params m; metrics := metrics m;
       registered_models :=
         registered_models m
         ++ [(artifact_path, registered_model_name, model)] |}).

(** [mlflow.end_run(status)] *)
Definition mlflow_end_run (status : run_status) : M unit :=
  tracking_call (EndRun status);;
  update_mlflow (fun m =>
    {| tracking_uri := tracking_uri m; experiment := experiment m;
       active_run := false; ended_runs := ended_runs m ++ [status];
       params := params m; metrics := metrics m;
       registered_models := registered_models m |}).

(** [with mlflow.start_run(): body].  Entering starts the run.  Leaving
    ends it, FINISHED after a normal body and FAILED after a raising one;
    [ActiveRun.__exit__] does not swallow the body's exception. *)
Definition run_then_exit {A} (body : M A) : M A := fun h s =>
  match body h s with
  | (Returns a, s') => (mlflow_end_run FINISHED;; mret a) h s'
  | (Raises e, s') => (mlflow_end_run FAILED;; raise e) h s'
  end.

Definition with_start_run {A} (body : M A) : M A :=
  tracking_call StartRun;;
  update_mlflow (fun m =>
    {| tracking_uri := tracking_uri m; experiment := experiment m;
       active_run := true; ended_runs := ended_runs m;
       params := params m; metrics := metrics m;
       registered_models := registered_models m |});;
  run_then_exit body.

(** ** train_model (lines 52-115) *)

(** Lines 71-78: generate sample data. *)
Definition generate_sample_data : M (list (list Feature) * list nat) :=
  make_classification 1000 10 5 2 2 (Some 42%Z).

(** Lines 81-83: split data. *)
Definition split_data (X : list (list Feature)) (y : list nat)
  : M (list (list Feature) * list (list Feature) * list nat * list nat) :=
  train_test_split X y (2 # 10)%Q (Some 42%Z) y.

(** Lines 87-92: train model. *)
Definition fit_model (X_train : list (list Feature)) (y_train : list nat)
  : M RandomForestClassifier :=
  let model := new_RandomForestClassifier 100 10 (Some 42%Z) in
  fit model X_train y_train.

(** Lines 66-115: the body of the [with] statement. *)
Definition tracked_run (env_info : gmap string pyvalue) : M Q :=
  (* Log environment info *)
  mlflow_log_params env_info;;
  (* Generate sample data *)
  print "📊 Generating sample dataset...";;
  '(X, y) ← generate_sample_data;
  (* Split data *)
  '(X_train, X_test, y_train, y_test) ← split_data X y;
  (* Train model *)
  print "🤖 Training model...";;
  model ← fit_model X_train y_train;
  (* Evaluate model *)
  y_pred ← predict model X_test;
  accuracy ← accuracy_score y_test y_pred;
  (* Log results *)
  mlflow_log_metric "accuracy" accuracy;;
  mlflow_log_metric "train_samples" (py_len X_train);;
  mlflow_log_metric "test_samples" (py_len X_test);;
  (* Log model *)
  mlflow_sklearn_log_model model "random_forest_model" "universal-ml-model";;
  print "✅ Model trained successfully!";;
  print ("📈 Accuracy: " +:+ format_4f accuracy);;
  print "🔍 Classification Report:";;
  report ← classification_report y_test y_pred;
  print report;;
  mret accuracy.

Definition train_model : M Q :=
  (* Environment detection *)
  env_info ← detect_compute_environment;
  platform ← getitem env_info "platform";
  architecture ← getitem env_info "architecture";
  print ("🖥️ Platform: " +:+ py_str platform +:+ " " +:+ py_str architecture);;
  python_version ← getitem env_info "python_version";
  print ("🐍 Python: " +:+ py_str python_version);;
  gpu_available ← getitem env_info "gpu_available";
  print ("🔧 GPU Available: " +:+ py_str gpu_available);;
  (* MLflow setup *)
  uri ← os_getenv "MLFLOW_TRACKING_URI" "http://localhost:5000";
  mlflow_set_tracking_uri uri;;
  mlflow_set_experiment "universal-ml-experiment";;
  with_start_run (tracked_run env_info).

(** ** The process (lines 117-118) *)

Inductive termination : Type :=
  | ExitSuccess
  | UncaughtException (e : exn).

(** Running the file as a script: [train_model()] is called with nothing
    around it, so what it raises ends the process. *)
Definition run_script (h : Host) : termination * store :=
  match train_model h initial_store with
  | (Returns _, s) => (ExitSuccess, s)
  | (Raises e, s) => (UncaughtException e, s)
  end.

End Script.

(** ** A small library instance and some hosts, to run the script on

    Row [i] of the data is [[i; 0; ...; 0]]; its label is the parity of [i],
    flipped on every tenth row.  The splitter hands out the first [n_test]
    indices for testing and the next [n_train] for training; the forest
    votes the parity of the first feature. *)
Module Toy.

Definition make_classification
    (n_samples n_features n_informative n_redundant n_classes : nat)
    (rs : RandomState) : list (list Z) * list nat :=
  (map (fun i => Z.of_nat i :: replicate (n_features - 1) 0%Z)
       (seq 0 n_samples),
   map (fun i => if decide (i mod 10 = 0) then 1 - i mod 2 else i mod 2)
       (seq 0 n_samples)).

Definition stratified_shuffle_split (rs : RandomState) (y : list nat)
    (n_train n_test : nat) : list nat * list nat :=
  (seq n_test n_train, seq 0 n_test).

Definition forest_vote (forest : unit) (row : list Z) : nat :=
  match row with
  | x :: _ => Z.to_nat (x mod 2)
  | [] => 0
  end.

#[global] Instance sklearn : Sklearn := {|
  Feature := Z;
  Forest := unit;
  sk_make_classification := make_classification;
  sk_stratified_shuffle_split := stratified_shuffle_split;
  sk_build_forest := fun _ _ _ _ _ => ();
  sk_forest_vote := forest_vote;
  sk_classification_report := fun _ _ => "report";
|}.

(** A Linux machine with neither optional library installed and a
    tracking server that answers. *)
Definition cpu_host : Host := {|
  platform_system := "Linux";
  platform_machine := "x86_64";
  platform_python_version := "3.11.4";
  import_tensorflow := Some ModuleNotFoundError;
  tf_list_physical_devices := inr [];
  import_torch := Some ModuleNotFoundError;
  torch_cuda_is_available := inr false;
  environ := ∅;
  np_random_global := 0%N;
  tracking_service := fun _ => None;
|}.

(** The same machine with tensorflow installed and one GPU visible. *)
Definition gpu_host : Host := {|
  platform_system := "Linux";
  platform_machine := "x86_64";
  platform_python_version := "3.11.4";
  import_tensorflow := None;
  tf_list_physical_devices := inr ["/physical_device:GPU:0"];
  import_torch := Some ModuleNotFoundError;
  torch_cuda_is_available := inr false;
  environ := {["MLFLOW_TRACKING_URI" := "http://tracking:5000"]};
  np_random_global := 7%N;
  tracking_service := fun _ => None;
|}.


(** tensorflow imports, but the device query pulls in a submodule that is
    missing and raises [ImportError]; torch is installed with CUDA. *)
Definition partial_tensorflow_host : Host := {|
  platform_system := "Linux";
  platform_machine := "x86_64";
  platform_python_version := "3.11.4";
  import_tensorflow := None;
  tf_list_physical_devices := inl ImportError;
  import_torch := None;
  torch_cuda_is_available := inr true;
  environ := ∅;
  np_random_global := 0%N;
  tracking_service := fun _ => None;
|}.


(** [cpu_host] with no tracking server listening: every operation that
    talks to the server fails; setting the URI is local and succeeds. *)
Definition offline_host : Host := {|
  platform_system := "Linux";
  platform_machine := "x86_64";
  platform_python_version := "3.11.4";
  import_tensorflow := Some ModuleNotFoundError;
  tf_list_physical_devices := inr [];
  import_torch := Some ModuleNotFoundError;
  torch_cuda_is_available := inr false;
  environ := ∅;
  np_random_global := 0%N;
  tracking_service := fun op =>
    match op with
    | SetTrackingUri _ => None
    | _ => Some ConnectionError
    end;
|}.

(** [cpu_host] with a tracking server that rejects one metric. *)
Definition flaky_host : Host := {|
  platform_system := "Linux";
  platform_machine := "x86_64";
  platform_python_version := "3.11.4";
  import_tensorflow := Some ModuleNotFoundError;
  tf_list_physical_devices := inr [];
  import_torch := Some ModuleNotFoundError;
  torch_cuda_is_available := inr false;
  environ := ∅;
  np_random_global := 0%N;
  tracking_service := fun op =>
    match op with
    | LogMetric "train_samples" => Some MlflowException
    | _ => None
    end;
|}.

End Toy.

(** ** Vocabulary of the statements *)

Section Vocabulary.
Context `{SK : Sklearn}.

(** The dict as written at lines 21-27, and after a GPU branch. *)
Definition no_gpu_env (h : Host) : gmap string pyvalue :=
  <["gpu_type" := PyNone]>
    (<["gpu_available" := PyBool false]>
       (<["python_version" := PyStr (platform_python_version h)]>
          (<["architecture" := PyStr (platform_machine h)]>
             (<["platform" := PyStr (platform_system h)]> ∅)))).

Definition cuda_env (h : Host) : gmap string pyvalue :=
  <["gpu_type" := PyStr "CUDA"]>
    (<["gpu_available" := PyBool true]> (no_gpu_env h)).

(** The five keys of [env_info]. *)
Definition env_info_keys : gset string :=
  {[ "platform"; "architecture"; "python_version"; "gpu_available";
     "gpu_type" ]}.

(** The tensorflow probe (lines 31-32) ends by raising [e]: the import
    does, or the import succeeds and the device query does. *)
Definition tensorflow_probe_raises (h : Host) (e : exn) : Prop :=
  import_tensorflow h = Some e \/
  (import_tensorflow h = None /\ tf_list_physical_devices h = inl e).

(** The same for the torch probe (lines 40-41). *)
Definition torch_probe_raises (h : Host) (e : exn) : Prop :=
  import_torch h = Some e \/
  (import_torch h = None /\ torch_cuda_is_available h = inl e).

(** An optional library is absent: importing it raises [ImportError]
    ([ModuleNotFoundError], its subclass, is what a missing package gives). *)
Definition absent (import_outcome : option exn) : Prop :=
  exists e, import_outcome = Some e /\ isinstance_ImportError e = true.

(** Every failure the four library calls of the host can end in is an
    [ImportError]. *)
Definition only_ImportErrors (h : Host) : Prop :=
  (forall e, import_tensorflow h = Some e -> isinstance_ImportError e = true) /\
  (forall e, tf_list_physical_devices h = inl e ->
             isinstance_ImportError e = true) /\
  (forall e, import_torch h = Some e -> isinstance_ImportError e = true) /\
  (forall e, torch_cuda_is_available h = inl e ->
             isinstance_ImportError e = true).

(** The external calls of a probe that raised: the import alone, or the
    import and the query after it. *)
Definition tensorflow_probe_events (h : Host) : list event :=
  match import_tensorflow h with
  | Some _ => [EvImport "tensorflow"]
  | None => [EvImport "tensorflow"; EvListPhysicalDevices "GPU"]
  end.

Definition torch_probe_events (h : Host) : list event :=
  match import_torch h with
  | Some _ => [EvImport "torch"]
  | None => [EvImport "torch"; EvCudaIsAvailable]
  end.

(** The seven ways through [detect_compute_environment]: how it ends, the
    external calls it made and the notice it printed. *)
Inductive probe_path (h : Host)
  : outcome (gmap string pyvalue) -> list event -> list string -> Prop :=
  | path_tensorflow_gpu devices :
      import_tensorflow h = None ->
      tf_list_physical_devices h = inr devices ->
      devices <> [] ->
      probe_path h (Returns (cuda_env h))
        [EvImport "tensorflow"; EvListPhysicalDevices "GPU"]
        ["✅ TensorFlow GPU detected"]
  | path_tensorflow_cpu :
      import_tensorflow h = None ->
      tf_list_physical_devices h = inr [] ->
      probe_path h (Returns (no_gpu_env h))
        [EvImport "tensorflow"; EvListPhysicalDevices "GPU"]
        ["ℹ️ TensorFlow using CPU"]
  | path_tensorflow_raises e :
      tensorflow_probe_raises h e ->
      isinstance_ImportError e = false ->
      probe_path h (Raises e) (tensorflow_probe_events h) []
  | path_torch_cuda e :
      tensorflow_probe_raises h e ->
      isinstance_ImportError e = true ->
      import_torch h = None ->
      torch_cuda_is_available h = inr true ->
      probe_path h (Returns (cuda_env h))
        (tensorflow_probe_events h ++ [EvImport "torch"; EvCudaIsAvailable])
        ["✅ PyTorch CUDA detected"]
  | path_torch_cpu e :
      tensorflow_probe_raises h e ->
      isinstance_ImportError e = true ->
      import_torch h = None ->
      torch_cuda_is_available h = inr false ->
      probe_path h (Returns (no_gpu_env h))
        (tensorflow_probe_events h ++ [EvImport "torch"; EvCudaIsAvailable])
        ["ℹ️ PyTorch using CPU"]
  | path_torch_raises e e' :
      tensorflow_probe_raises h e ->
      isinstance_ImportError e = true ->
      torch_probe_raises h e' ->
      isinstance_ImportError e' = false ->
      probe_path h (Raises e')
        (tensorflow_probe_events h ++ torch_probe_events h) []
  | path_no_libraries e e' :
      tensorflow_probe_raises h e ->
      isinstance_ImportError e = true ->
      torch_probe_raises h e' ->
      isinstance_ImportError e' = true ->
      probe_path h (Returns (no_gpu_env h))
        (tensorflow_probe_events h ++ torch_probe_events h)
        ["ℹ️ No GPU ML libraries detected"].

(** The endpoint the script selects on host [h]. *)
Definition selected_uri (h : Host) : string :=
  match environ h !! "MLFLOW_TRACKING_URI" with
  | Some uri => uri
  | None => "http://localhost:5000"
  end.

(** The tracking operations of a complete run, in order. *)
Definition tracking_ops (h : Host) : list tracking_op :=
  [ SetTrackingUri (selected_uri h);
    SetExperiment "universal-ml-experiment";
    StartRun;
    LogParams;
    LogMetric "accuracy";
    LogMetric "train_samples";
    LogMetric "test_samples";
    LogModel "random_forest_model" "universal-ml-model";
    EndRun FINISHED ].

(** Those of them that the [with] body performs. *)
Definition body_ops : list tracking_op :=
  [ LogParams;
    LogMetric "accuracy";
    LogMetric "train_samples";
    LogMetric "test_samples";
    LogModel "random_forest_model" "universal-ml-model" ].

(** The first operation of [ops] that the service fails, with its error. *)
Fixpoint first_failure (svc : tracking_op -> option exn)
    (ops : list tracking_op) : option (tracking_op * exn) :=
  match ops with
  | [] => None
  | op :: ops =>
      match svc op with
      | Some e => Some (op, e)
      | None => first_failure svc ops
      end
  end.

(** [m] ends as [r] on every host, from every store, and leaves the store
    as it was: a computation that depends on nothing outside the script. *)
Definition computes {A} (m : M A) (r : outcome A) : Prop :=
  forall (h : Host) (s : store), m h s = (r, s).

(** The local variables of the [with] body. *)
Record locals : Type := {
  loc_X : list (list Feature);
  loc_y : list nat;
  loc_X_train : list (list Feature);
  loc_X_test : list (list Feature);
  loc_y_train : list nat;
  loc_y_test : list nat;
  loc_model : RandomForestClassifier;
  loc_y_pred : list nat;
  loc_accuracy : Q;
}.

(** The locals hold what lines 71-96 compute. *)
Definition evaluated (v : locals) : Prop :=
  computes generate_sample_data (Returns (loc_X v, loc_y v)) /\
  computes (split_data (loc_X v) (loc_y v))
    (Returns (loc_X_train v, loc_X_test v, loc_y_train v, loc_y_test v)) /\
  computes (fit_model (loc_X_train v) (loc_y_train v))
    (Returns (loc_model v)) /\
  computes (predict (loc_model v) (loc_X_test v)) (Returns (loc_y_pred v)) /\
  computes (accuracy_score (loc_y_test v) (loc_y_pred v))
    (Returns (loc_accuracy v)).

(** The store after [mlflow.start_run()] succeeded, and after the run was
    ended with [status]. *)
Definition started (s : store) : store :=
  {| console := console s;
     events := events s ++ [EvTracking StartRun];
     mlflow :=
       {| tracking_uri := tracking_uri (mlflow s);
          experiment := experiment (mlflow s);
          active_run := true;
          ended_runs := ended_runs (mlflow s);
          params := params (mlflow s);
          metrics := metrics (mlflow s);
          registered_models := registered_models (mlflow s) |} |}.

Definition ended (status : run_status) (s : store) : store :=
  {| console := console s;
     events := events s ++ [EvTracking (EndRun status)];
     mlflow :=
       {| tracking_uri := tracking_uri (mlflow s);
          experiment := experiment (mlflow s);
          active_run := false;
          ended_runs := ended_runs (mlflow s) ++ [status];
          params := params (mlflow s);
          metrics := metrics (mlflow s);
          registered_models := registered_models (mlflow s) |} |}.

(** The tracking store after the [with] body ran through from [m0]. *)
Definition body_mlflow (env_info : gmap string pyvalue) (v : locals)
    (m0 : mlflow_store) : mlflow_store :=
  {| tracking_uri := tracking_uri m0;
     experiment := experiment m0;
     active_run := active_run m0;
     ended_runs := ended_runs m0;
     params := (py_str <$> env_info) ∪ params m0;
     metrics :=
       <["test_samples" := py_len (loc_X_test v)]>
         (<["train_samples" := py_len (loc_X_train v)]>
            (<["accuracy" := loc_accuracy v]> (metrics m0)));
     registered_models :=
       registered_models m0
       ++ [("random_forest_model", "universal-ml-model", loc_model v)] |}.

(** The tracking store after a complete run that started from [m0], logged
    [env_info] and computed [v]. *)
Definition final_mlflow (h : Host) (env_info : gmap string pyvalue)
    (v : locals) (m0 : mlflow_store) : mlflow_store :=
  {| tracking_uri := Some (selected_uri h);
     experiment := Some "universal-ml-experiment";
     active_run := false;
     ended_runs := ended_runs m0 ++ [FINISHED];
     params := (py_str <$> env_info) ∪ params m0;
     metrics :=
       <["test_samples" := py_len (loc_X_test v)]>
         (<["train_samples" := py_len (loc_X_train v)]>
            (<["accuracy" := loc_accuracy v]> (metrics m0)));
     registered_models :=
       registered_models m0
       ++ [("random_forest_model", "universal-ml-model", loc_model v)] |}.

(** The tracking operations before the [with] body. *)
Definition setup_ops (h : Host) : list tracking_op :=
  [ SetTrackingUri (selected_uri h);
    SetExperiment "universal-ml-experiment";
    StartRun ].

(** [m] goes through the tracking operations [ops] in order: on every
    host, from every store, the tracking calls it adds to the log are a
    prefix of [ops], all of [ops] when it returns, and it neither starts
    nor ends a run. *)
Definition steps {A} (ops : list tracking_op) (m : M A) : Prop :=
  forall (h : Host) (s : store),
    exists done,
      done `prefix_of` ops /\
      events (m h s).2 = events s ++ map EvTracking done /\
      (forall a, (m h s).1 = Returns a -> done = ops) /\
      active_run (mlflow (m h s).2) = active_run (mlflow s) /\
      ended_runs (mlflow (m h s).2) = ended_runs (mlflow s).

(** What a run that made the tracking calls [calls] and ended as [r] did to
    the run record, seen from the tracking store before ([m0]) and after
    ([m1]): a returning run is recorded FINISHED and closed; a raising one
    is recorded FAILED or not at all, and it is closed or was never opened
    unless ending the run failed. *)
Definition run_record_ok {A} (h : Host) (r : outcome A)
    (m0 m1 : mlflow_store) : Prop :=
  match r with
  | Returns _ =>
      ended_runs m1 = ended_runs m0 ++ [FINISHED] /\ active_run m1 = false
  | Raises _ =>
      (ended_runs m1 = ended_runs m0 \/
       ended_runs m1 = ended_runs m0 ++ [FAILED]) /\
      (tracking_service h (EndRun FINISHED) = None ->
       tracking_service h (EndRun FAILED) = None ->
       active_run m1 = false \/ active_run m1 = active_run m0)
  end.

(** The tracking calls [calls] are those of a run of the script: a prefix
    of the complete sequence, or the setup, a prefix of the body and the
    call that ends the run as FAILED. *)
Definition run_calls_ok (h : Host) (calls : list tracking_op) : Prop :=
  calls `prefix_of` tracking_ops h \/
  exists done,
    done `prefix_of` body_ops /\
    calls = setup_ops h ++ done ++ [EndRun FAILED].

End Vocabulary.

(** * Properties *)

(** ** The environment probe *)

Section Probe.
Context `{SK : Sklearn}.

Lemma py_import_tensorflow (h : Host) (s : store) :
  py_import "tensorflow" h s =
  (match import_tensorflow h with Some e => Raises e | None => Returns () end,
   {| console := console s; events := events s ++ [EvImport "tensorflow"];
      mlflow := mlflow s |}).
Proof.
  unfold py_import, mbind, M_bind, log_event, ask, of_failure, raise, mret,
    M_ret.
  rewrite (decide_True (P := "tensorflow" = "tensorflow")) by reflexivity.
  destruct (import_tensorflow h); reflexivity.
Qed.

Lemma py_import_torch (h : Host) (s : store) :
  py_import "torch" h s =
  (match import_torch h with Some e => Raises e | None => Returns () end,
   {| console := console s; events := events s ++ [EvImport "torch"];
      mlflow := mlflow s |}).
Proof.
  unfold py_import, mbind, M_bind, log_event, ask, of_failure, raise, mret,
    M_ret.
  rewrite (decide_False (P := "torch" = "tensorflow")) by discriminate.
  rewrite (decide_True (P := "torch" = "torch")) by reflexivity.
  destruct (import_torch h); reflexivity.
Qed.

Ltac unfold_probe :=
  cbv [detect_compute_environment tf_config_list_physical_devices
       torch_cuda_is_available_call try_except log_event print ask
       of_sum raise mbind M_bind mret M_ret py_truthy_list];
  rewrite ?py_import_tensorflow, ?py_import_torch.

Lemma conj_second_first (A B : Prop) : B -> A -> A /\ B.
Proof. tauto. Qed.

Ltac probe_leaf :=
  eexists _, _, _; apply conj_second_first;
  [ eexists; split; [reflexivity |];
    cbn [console events mlflow]; rewrite <- ?app_assoc;
    repeat split; first [reflexivity | symmetry; apply app_nil_r]
  | solve [ econstructor;
            unfold tensorflow_probe_raises, torch_probe_raises;
            cbn [import_tensorflow tf_list_physical_devices import_torch
                 torch_cuda_is_available];
            first [ eassumption | reflexivity | discriminate
                  | left; reflexivity | right; split; reflexivity ] ] ].

(** Every run of the probe follows one of the seven paths and touches
    nothing but the console and the call log. *)
Lemma detect_path (h : Host) (s : store) :
  exists r evs lines,
    probe_path h r evs lines /\
    exists s', detect_compute_environment h s = (r, s') /\
      console s' = console s ++ lines /\
      events s' = events s ++ evs /\
      mlflow s' = mlflow s.
Proof.
  unfold_probe.
  destruct h as [sys mach ver itf tfl ito tca env g svc].
  cbn [import_tensorflow tf_list_physical_devices import_torch
       torch_cuda_is_available platform_system platform_machine
       platform_python_version].
  destruct itf as [e1|]; [| destruct tfl as [e1|[|d ds]] ];
    try destruct (isinstance_ImportError e1) eqn:He1;
    rewrite ?py_import_torch; cbn [import_torch];
    try (destruct ito as [e2|]; [| destruct tca as [e2|[|]] ]);
    try destruct (isinstance_ImportError e2) eqn:He2.
  all: probe_leaf.
Qed.

Lemma no_gpu_env_gpu_available (h : Host) :
  no_gpu_env h !! "gpu_available" = Some (PyBool false).
Proof. unfold no_gpu_env. by simplify_map_eq. Qed.

Lemma no_gpu_env_gpu_type (h : Host) : no_gpu_env h !! "gpu_type" = Some PyNone.
Proof. unfold no_gpu_env. by simplify_map_eq. Qed.

Lemma cuda_env_gpu_available (h : Host) :
  cuda_env h !! "gpu_available" = Some (PyBool true).
Proof. unfold cuda_env. by simplify_map_eq. Qed.

Lemma cuda_env_gpu_type (h : Host) :
  cuda_env h !! "gpu_type" = Some (PyStr "CUDA").
Proof. unfold cuda_env. by simplify_map_eq. Qed.

Lemma no_gpu_env_dom (h : Host) : dom (no_gpu_env h) = env_info_keys.
Proof.
  unfold no_gpu_env, env_info_keys.
  rewrite !dom_insert_L, dom_empty_L. set_solver.
Qed.

Lemma cuda_env_dom (h : Host) : dom (cuda_env h) = env_info_keys.
Proof.
  unfold cuda_env. rewrite !dom_insert_L, no_gpu_env_dom.
  unfold env_info_keys. set_solver.
Qed.

(** The probe leaves the tracking store alone. *)
Lemma detect_preserves_mlflow (h : Host) (s s' : store) r :
  detect_compute_environment h s = (r, s') -> mlflow s' = mlflow s.
Proof.
  intros Hrun.
  destruct (detect_path h s) as (r' & evs & lines & _ & t & Ht & _ & _ & Hm).
  rewrite Hrun in Ht. injection Ht as <- <-. exact Hm.
Qed.

(** What the probe returns is one of the two dicts. *)
Lemma detect_returns_env (h : Host) (s s' : store) env :
  detect_compute_environment h s = (Returns env, s') ->
  env = no_gpu_env h \/ env = cuda_env h.
Proof.
  intros Hrun.
  destruct (detect_path h s) as (r & evs & lines & Hpath & t & Ht & _).
  rewrite Hrun in Ht. injection Ht as <- <-.
  inversion Hpath; auto.
Qed.

(** C10.  In the record that [detect_compute_environment] returns,
    [gpu_available] is [True] exactly when [gpu_type] is ['CUDA'], and
    [False] exactly when [gpu_type] is [None]; one of the two holds. *)
Theorem gpu_fields_set_together (h : Host) (s s' : store)
    (env : gmap string pyvalue) :
  detect_compute_environment h s = (Returns env, s') ->
  (env !! "gpu_available" = Some (PyBool true) <->
   env !! "gpu_type" = Some (PyStr "CUDA")) /\
  (env !! "gpu_available" = Some (PyBool false) <->
   env !! "gpu_type" = Some PyNone) /\
  (env !! "gpu_available" = Some (PyBool true) \/
   env !! "gpu_available" = Some (PyBool false)).
Proof.
  intros Hrun.
  destruct (detect_returns_env _ _ _ _ Hrun) as [-> | ->].
  - rewrite no_gpu_env_gpu_available, no_gpu_env_gpu_type.
    repeat split; auto; discriminate.
  - rewrite cuda_env_gpu_available, cuda_env_gpu_type.
    repeat split; auto; discriminate.
Qed.

Ltac probe_facts :=
  unfold tensorflow_probe_raises, torch_probe_raises, only_ImportErrors,
    absent in *.

(** A probe that raises, raises one exception. *)
Lemma tensorflow_probe_raises_inj (h : Host) (e e' : exn) :
  tensorflow_probe_raises h e -> tensorflow_probe_raises h e' -> e = e'.
Proof. probe_facts. intros [?|[? ?]] [?|[? ?]]; congruence. Qed.


(** The probe run from [s], with its path. *)
Ltac probe_run h s :=
  let r := fresh "r" in let evs := fresh "evs" in
  let lines := fresh "lines" in let t := fresh "t" in
  let Hpath := fresh "Hpath" in let Ht := fresh "Ht" in
  let Hc := fresh "Hconsole" in let He := fresh "Hevents" in
  let Hm := fresh "Hmlflow" in
  destruct (detect_path h s)
    as (r & evs & lines & Hpath & t & Ht & Hc & He & Hm).




(** C7, as the code has it.  The first external call of the probe is the
    tensorflow import; torch is imported exactly when the tensorflow probe
    (the import, or the device query in the same [try] block) raised an
    [ImportError]; and whenever the probe returns, the record has exactly
    the five keys. *)
Theorem probe_order_and_shape (h : Host) (s s' : store)
    (r : outcome (gmap string pyvalue)) :
  detect_compute_environment h s = (r, s') ->
  exists rest,
    events s' = events s ++ EvImport "tensorflow" :: rest /\
    (EvImport "torch" ∈ rest <->
     exists e, tensorflow_probe_raises h e /\
               isinstance_ImportError e = true) /\
    (forall env, r = Returns env -> dom env = env_info_keys).
Proof.
  intros Hrun. probe_run h s. rewrite Hrun in Ht. injection Ht as <- <-.
  rewrite Hevents.
  assert (Hshape : forall env, r = Returns env -> dom env = env_info_keys).
  { intros env Hr. rewrite Hr in Hpath.
    inversion Hpath; auto using no_gpu_env_dom, cuda_env_dom. }
  assert (Hone : forall e e', tensorflow_probe_raises h e ->
            isinstance_ImportError e = false -> tensorflow_probe_raises h e' ->
            isinstance_ImportError e' = true -> False).
  { intros e e' H1 He H2 He'.
    rewrite (tensorflow_probe_raises_inj _ _ _ H1 H2) in He. congruence. }
  assert (Htf : forall e, tensorflow_probe_raises h e ->
            exists tail, tensorflow_probe_events h
                         = EvImport "tensorflow" :: tail /\
                         EvImport "torch" ∉ tail).
  { intros e [H1 | [H1 _]]; unfold tensorflow_probe_events; rewrite H1;
      eexists; (split; [reflexivity |]);
      rewrite ?elem_of_cons, elem_of_nil; intuition discriminate. }
  assert (Hto : EvImport "torch" ∈ torch_probe_events h).
  { unfold torch_probe_events.
    destruct (import_torch h); apply elem_of_cons; auto. }
  inversion Hpath; subst;
    try match goal with
    | H : tensorflow_probe_raises _ _ |- _ =>
        destruct (Htf _ H) as (tail & -> & Htail)
    end;
    (eexists; split; [simpl; reflexivity |]; split; [| assumption]).
  1, 2: split;
    [ intros Hin; apply list_elem_of_singleton in Hin; discriminate
    | intros (e0 & [Hx | [_ Hx]] & _); congruence ].
  - split; [intros; contradiction |].
    intros (e0 & Hraises & He0). exfalso. eauto.
  - split; [eauto |]. intros _. apply elem_of_app. right. apply elem_of_cons.
    auto.
  - split; [eauto |]. intros _. apply elem_of_app. right. apply elem_of_cons.
    auto.
  - split; [eauto |]. intros _. apply elem_of_app. auto.
  - split; [eauto |]. intros _. apply elem_of_app. auto.
Qed.


(** ** Further properties of the probe *)

(** X1.  The record reports a GPU exactly in two situations: tensorflow
    imports and lists at least one GPU device, whatever the devices are; or
    the tensorflow probe raised an [ImportError], torch imports and
    [torch.cuda.is_available()] is true.  A tensorflow that imports and
    lists no GPU settles the answer: torch is not asked. *)
Theorem gpu_reported_exactly_when (h : Host) (s s' : store)
    (env : gmap string pyvalue) :
  detect_compute_environment h s = (Returns env, s') ->
  (env !! "gpu_available" = Some (PyBool true) <->
   (import_tensorflow h = None /\
    exists devices, tf_list_physical_devices h = inr devices /\ devices <> [])
   \/
   ((exists e, tensorflow_probe_raises h e /\
               isinstance_ImportError e = true) /\
    import_torch h = None /\ torch_cuda_is_available h = inr true)).
Proof.
  intros Hrun. probe_run h s. rewrite Hrun in Ht. injection Ht as <- <-.
  inversion Hpath; subst;
    rewrite ?cuda_env_gpu_available, ?no_gpu_env_gpu_available.
  - split; [| reflexivity]. intros _. left. eauto.
  - split; [discriminate |].
    intros [(_ & d & Hd & Hne) | ((e0 & Hr & _) & _)];
      probe_facts; intuition congruence.
  - split; [| reflexivity]. intros _. right. eauto.
  - split; [discriminate |].
    intros [(Hi & d & Hd & _) | (_ & _ & Hc)];
      probe_facts; intuition congruence.
  - split; [discriminate |].
    intros [(Hi & d & Hd & _) | (_ & Hi & Hc)];
      probe_facts; intuition congruence.
Qed.

(** X2.  The probe has no effect but its console notice: it leaves the
    tracking store as it was, prints exactly one line when it returns and
    nothing when it raises. *)
Theorem probe_prints_one_notice (h : Host) (s s' : store)
    (r : outcome (gmap string pyvalue)) :
  detect_compute_environment h s = (r, s') ->
  mlflow s' = mlflow s /\
  match r with
  | Returns _ => exists line, console s' = console s ++ [line]
  | Raises _ => console s' = console s
  end.
Proof.
  intros Hrun. probe_run h s. rewrite Hrun in Ht. injection Ht as <- <-.
  split; [exact Hmlflow |]. rewrite Hconsole.
  inversion Hpath; subst; eauto using app_nil_r.
Qed.

(** X3.  The external calls of the probe are among the two imports and the
    two queries, each made at most once, and a library is only queried
    after its import succeeded; in particular the probe makes no call to
    the tracking service. *)
Theorem probe_queries_follow_imports (h : Host) (s s' : store)
    (r : outcome (gmap string pyvalue)) :
  detect_compute_environment h s = (r, s') ->
  exists evs,
    events s' = events s ++ evs /\
    evs `sublist_of`
      [EvImport "tensorflow"; EvListPhysicalDevices "GPU";
       EvImport "torch"; EvCudaIsAvailable] /\
    (EvListPhysicalDevices "GPU" ∈ evs -> import_tensorflow h = None) /\
    (EvCudaIsAvailable ∈ evs -> import_torch h = None).
Proof.
  intros Hrun. probe_run h s. rewrite Hrun in Ht. injection Ht as <- <-.
  exists evs. split; [exact Hevents |].
  assert (Htf : tensorflow_probe_events h = [EvImport "tensorflow"] /\
                  import_tensorflow h <> None \/
                tensorflow_probe_events h =
                  [EvImport "tensorflow"; EvListPhysicalDevices "GPU"] /\
                  import_tensorflow h = None).
  { unfold tensorflow_probe_events. destruct (import_tensorflow h); auto. }
  assert (Hto : torch_probe_events h = [EvImport "torch"] /\
                  import_torch h <> None \/
                torch_probe_events h = [EvImport "torch"; EvCudaIsAvailable] /\
                  import_torch h = None).
  { unfold torch_probe_events. destruct (import_torch h); auto. }
  inversion Hpath; subst;
    destruct Htf as [[Ha Htf] | [Ha Htf]];
    destruct Hto as [[Hb Hto] | [Hb Hto]];
    rewrite ?Ha, ?Hb; try congruence; cbn [app];
    try (exfalso; probe_facts; intuition congruence);
    (split; [| split; intros Hin; try assumption; exfalso;
                 repeat (apply elem_of_cons in Hin as [Hin | Hin];
                         [discriminate Hin |]);
                 apply elem_of_nil in Hin; exact Hin]);
    repeat first [ apply sublist_nil | apply sublist_skip
                 | apply sublist_cons ].
Qed.

End Probe.

(** ** The training run *)

Section Training.
Context `{SK : Sklearn}.

(** *** Stepping through a sequence of calls *)

Lemma bind_step {A B} (m : M A) (k : A -> M B) h s a s1 :
  m h s = (Returns a, s1) -> (m ≫= k) h s = k a h s1.
Proof. unfold mbind, M_bind. intros ->. reflexivity. Qed.

Lemma bind_fail {A B} (m : M A) (k : A -> M B) h s e s1 :
  m h s = (Raises e, s1) -> (m ≫= k) h s = (Raises e, s1).
Proof. unfold mbind, M_bind. intros ->. reflexivity. Qed.

Lemma bind_Returns_inv {A B} (m : M A) (k : A -> M B) h s b s' :
  (m ≫= k) h s = (Returns b, s') ->
  exists a s1, m h s = (Returns a, s1) /\ k a h s1 = (Returns b, s').
Proof.
  unfold mbind, M_bind. destruct (m h s) as [[a | e] s1]; [eauto | discriminate].
Qed.

Lemma computes_run {A} (m : M A) r h s : computes m r -> m h s = (r, s).
Proof. intros Hm. apply Hm. Qed.

Lemma computes_inj {A} (m : M A) r r' : computes m r -> computes m r' -> r = r'.
Proof.
  intros Hr Hr'.
  pose proof (Hr Toy.cpu_host initial_store) as H1.
  rewrite (Hr' Toy.cpu_host initial_store) in H1. congruence.
Qed.

Lemma computes_bind {A B} (m : M A) (k : A -> M B) a r :
  computes m (Returns a) -> computes (k a) r -> computes (m ≫= k) r.
Proof. intros Hm Hk h s. rewrite (bind_step _ _ _ _ _ _ (Hm h s)). apply Hk. Qed.

Lemma computes_bind_fail {A B} (m : M A) (k : A -> M B) e :
  computes m (Raises e) -> computes (m ≫= k) (Raises e).
Proof. intros Hm h s. apply bind_fail, Hm. Qed.

Lemma computes_ret {A} (a : A) : computes (mret a) (Returns a).
Proof. intros h s. reflexivity. Qed.

Lemma computes_raise {A} (e : exn) : computes (raise (A := A) e) (Raises e).
Proof. intros h s. reflexivity. Qed.

(** A call that passes an int seed does not see numpy's global generator. *)
Lemma computes_seeded {A} (k : N -> M A) r :
  (forall g, computes (k g) r) -> computes (ask np_random_global ≫= k) r.
Proof. intros Hk h s. unfold mbind, M_bind, ask. apply Hk. Qed.

(** *** Lines 71-96 depend on nothing outside the script *)

Lemma generate_sample_data_computes :
  computes generate_sample_data
    (Returns (sk_make_classification 1000 10 5 2 2 (Seeded 42))).
Proof. intros h s. reflexivity. Qed.

Lemma ex_computes_bind {A B} (m : M A) (k : A -> M B) :
  (exists r, computes m r) -> (forall a, exists r, computes (k a) r) ->
  exists r, computes (m ≫= k) r.
Proof.
  intros [[a | e] Hm] Hk.
  - destruct (Hk a) as [r Hr]. exists r. eapply computes_bind; eauto.
  - exists (Raises e). apply computes_bind_fail, Hm.
Qed.

Lemma ex_computes_seeded {A} (m : M A) :
  (exists r, computes m r) ->
  exists r, computes (ask np_random_global ≫= fun _ => m) r.
Proof. intros [r Hr]. exists r. apply computes_seeded. auto. Qed.

Lemma safe_indexing_computes {A} (a : list A) (indices : list nat) :
  exists r, computes (_safe_indexing a indices) r.
Proof.
  unfold _safe_indexing. destruct (mapM _ indices); eexists.
  - apply computes_ret.
  - apply computes_raise.
Qed.

Lemma validate_shuffle_split_computes (n_samples : nat) (test_size : Q) :
  exists r, computes (_validate_shuffle_split n_samples test_size) r.
Proof.
  unfold _validate_shuffle_split.
  destruct (_ || _); [eexists; apply computes_raise |].
  destruct (decide _); eexists; [apply computes_raise | apply computes_ret].
Qed.

Lemma split_data_computes (X : list (list Feature)) (y : list nat) :
  exists r, computes (split_data X y) r.
Proof.
  unfold split_data, train_test_split.
  destruct (negb _); [eexists; apply computes_raise |].
  apply ex_computes_bind; [apply validate_shuffle_split_computes |].
  intros [n_train n_test]. cbn [check_random_state].
  destruct (sk_stratified_shuffle_split (Seeded 42) y n_train n_test)
    as [train test].
  apply ex_computes_seeded.
  repeat (apply ex_computes_bind; [apply safe_indexing_computes | intros ?]).
  eexists. apply computes_ret.
Qed.

Lemma fit_model_computes (X_train : list (list Feature)) (y_train : list nat) :
  exists r, computes (fit_model X_train y_train) r.
Proof.
  unfold fit_model, fit.
  destruct (negb _); [eexists; apply computes_raise |].
  cbn [check_random_state random_state new_RandomForestClassifier].
  apply ex_computes_seeded. eexists. apply computes_ret.
Qed.

Lemma predict_computes model (X_test : list (list Feature)) :
  exists r, computes (predict model X_test) r.
Proof.
  unfold predict.
  destruct (estimators_ model); eexists;
    [apply computes_ret | apply computes_raise].
Qed.

Lemma accuracy_score_computes (y_true y_pred : list nat) :
  exists r, computes (accuracy_score y_true y_pred) r.
Proof.
  unfold accuracy_score.
  destruct (negb _); [eexists; apply computes_raise |].
  destruct (bool_decide _); eexists;
    [apply computes_raise | apply computes_ret].
Qed.

(** A step of the body that returned, returned what it computes. *)
Lemma computes_Returns_inv {A} (m : M A) h s a s1 :
  (exists r, computes m r) -> m h s = (Returns a, s1) ->
  computes m (Returns a) /\ s1 = s.
Proof.
  intros [r Hr] Hrun. rewrite (Hr h s) in Hrun.
  injection Hrun as -> <-. auto.
Qed.

(** The locals of a run are determined by the script alone. *)
Lemma evaluated_unique (v v' : locals) : evaluated v -> evaluated v' -> v = v'.
Proof.
  destruct v as [X y Xtr Xte ytr yte model ypred acc].
  destruct v' as [X' y' Xtr' Xte' ytr' yte' model' ypred' acc'].
  unfold evaluated. cbn.
  intros (H1 & H2 & H3 & H4 & H5) (H1' & H2' & H3' & H4' & H5').
  pose proof (computes_inj _ _ _ H1 H1') as [= <- <-].
  pose proof (computes_inj _ _ _ H2 H2') as [= <- <- <- <-].
  pose proof (computes_inj _ _ _ H3 H3') as [= <-].
  pose proof (computes_inj _ _ _ H4 H4') as [= <-].
  pose proof (computes_inj _ _ _ H5 H5') as [= <-].
  reflexivity.
Qed.

(** *** Sizes of the split *)

Lemma safe_indexing_in_range {A} (a : list A) (indices : list nat) :
  Forall (fun i => i < length a) indices ->
  exists rows, computes (_safe_indexing a indices) (Returns rows) /\
               length rows = length indices.
Proof.
  intros Hin. unfold _safe_indexing.
  destruct (mapM (fun i => a !! i) indices) as [rows |] eqn:Hrows.
  - exists rows. split; [apply computes_ret |].
    symmetry. eapply length_mapM, Hrows.
  - exfalso. apply mapM_None in Hrows. apply Exists_exists in Hrows.
    destruct Hrows as (i & Hi & Hnone).
    rewrite Forall_forall in Hin. apply Hin in Hi.
    apply lookup_ge_None in Hnone. lia.
Qed.

Lemma validate_shuffle_split_1000 :
  computes (_validate_shuffle_split 1000 (2 # 10)) (Returns (800, 200)).
Proof. intros h s. vm_compute. reflexivity. Qed.

Lemma split_data_sizes `{!SklearnShapes} (X : list (list Feature))
    (y : list nat) :
  length X = 1000 -> length y = 1000 ->
  exists X_train X_test y_train y_test,
    computes (split_data X y) (Returns (X_train, X_test, y_train, y_test)) /\
    length X_train = 800 /\ length X_test = 200 /\
    length y_train = 800 /\ length y_test = 200.
Proof.
  intros HX Hy. unfold split_data, train_test_split.
  rewrite HX, Hy. rewrite bool_decide_eq_true_2 by reflexivity.
  cbn [negb check_random_state].
  destruct (stratified_shuffle_split_shape (Seeded 42) y 800 200)
    as (Htrain & Htest & Hin_train & Hin_test); [lia |].
  destruct (sk_stratified_shuffle_split (Seeded 42) y 800 200)
    as [train test] eqn:Hsplit.
  cbn [fst snd] in *.
  destruct (safe_indexing_in_range X train) as (X_train & HXtr & Hl1).
  { rewrite HX, <- Hy. exact Hin_train. }
  destruct (safe_indexing_in_range X test) as (X_test & HXte & Hl2).
  { rewrite HX, <- Hy. exact Hin_test. }
  destruct (safe_indexing_in_range y train) as (y_train & Hytr & Hl3);
    [exact Hin_train |].
  destruct (safe_indexing_in_range y test) as (y_test & Hyte & Hl4);
    [exact Hin_test |].
  exists X_train, X_test, y_train, y_test.
  split; [| lia].
  eapply computes_bind; [apply validate_shuffle_split_1000 |].
  cbv beta iota. apply computes_seeded. intros _. rewrite Hsplit.
  repeat (eapply computes_bind; [eassumption |]).
  apply computes_ret.
Qed.

(** *** The range of the accuracy *)

Lemma count_correct_le (y_true y_pred : list nat) :
  count_correct y_true y_pred <= length y_true.
Proof.
  unfold count_correct.
  etransitivity; [apply length_filter |].
  rewrite length_zip_with. lia.
Qed.

Lemma accuracy_score_range (y_true y_pred : list nat) h s a s' :
  accuracy_score y_true y_pred h s = (Returns a, s') ->
  (0 <= a /\ a <= 1)%Q.
Proof.
  unfold accuracy_score.
  destruct (negb _); [discriminate |].
  destruct (bool_decide_reflect (length y_true = 0)) as [| Hne];
    [discriminate |].
  intros [= <- _].
  pose proof (count_correct_le y_true y_pred) as Hle.
  unfold Qle. cbn [Qnum Qden].
  rewrite <- (Nat2Pos.id (length y_true)) in Hle by exact Hne.
  lia.
Qed.

(** *** Calls to the tracking service *)

Lemma tracked_update_run (op : tracking_op) f h s :
  (tracking_call op;; update_mlflow f) h s =
  match tracking_service h op with
  | Some e =>
      (Raises e, {| console := console s; events := events s ++ [EvTracking op];
                    mlflow := mlflow s |})
  | None =>
      (Returns (), {| console := console s;
                      events := events s ++ [EvTracking op];
                      mlflow := f (mlflow s) |})
  end.
Proof.
  unfold tracking_call, update_mlflow, mbind, M_bind, log_event, ask,
    of_failure, raise, mret, M_ret.
  destruct (tracking_service h op); reflexivity.
Qed.

Lemma tracked_update_Returns_inv (op : tracking_op) f h s u s' :
  (tracking_call op;; update_mlflow f) h s = (Returns u, s') ->
  tracking_service h op = None /\
  s' = {| console := console s; events := events s ++ [EvTracking op];
          mlflow := f (mlflow s) |}.
Proof.
  rewrite tracked_update_run.
  destruct (tracking_service h op); [discriminate |].
  intros [= _ <-]. auto.
Qed.

Lemma getitem_Returns_inv d k h s v s' :
  getitem d k h s = (Returns v, s') -> d !! k = Some v /\ s' = s.
Proof.
  unfold getitem. destruct (d !! k); [| discriminate].
  intros [= <- <-]. auto.
Qed.

Lemma os_getenv_run key default_value h s :
  os_getenv key default_value h s =
  (Returns (default default_value (environ h !! key)), s).
Proof. reflexivity. Qed.

(** *** A run that returns *)

Ltac inv_bind H Hs :=
  apply bind_Returns_inv in H as (? & ? & Hs & H); cbv beta iota in H.

(** After a step, the fields of the store it left are flattened. *)
Ltac flatten_store H :=
  cbn [console events mlflow tracking_uri experiment active_run ended_runs
       params metrics registered_models] in H.

Ltac inv_print Hs H :=
  unfold print in Hs; injection Hs as <- <-; flatten_store H.

Ltac inv_tracked Hs T H :=
  apply tracked_update_Returns_inv in Hs as [T ->]; flatten_store H.

Ltac inv_computes Hs C pf :=
  apply computes_Returns_inv in Hs as [C ->]; [| exact pf].

Lemma tracked_run_Returns_inv env_info h s a s' :
  tracked_run env_info h s = (Returns a, s') ->
  exists v,
    evaluated v /\ a = loc_accuracy v /\
    Forall (fun op => tracking_service h op = None) body_ops /\
    events s' = events s ++ map EvTracking body_ops /\
    mlflow s' = body_mlflow env_info v (mlflow s).
Proof.
  intros H. unfold tracked_run in H.
  inv_bind H Hs. unfold mlflow_log_params in Hs. inv_tracked Hs T1 H.
  inv_bind H Hs. inv_print Hs H.
  inv_bind H Hs.
  inv_computes Hs C1 (ex_intro _ _ generate_sample_data_computes).
  match type of C1 with computes _ (Returns ?p) => destruct p as [X y] end.
  inv_bind H Hs. inv_computes Hs C2 (split_data_computes X y).
  match type of C2 with
  | computes _ (Returns ?p) => destruct p as [[[X_train X_test] y_train] y_test]
  end.
  inv_bind H Hs. inv_print Hs H.
  inv_bind H Hs. inv_computes Hs C3 (fit_model_computes X_train y_train).
  match type of C3 with computes _ (Returns ?m) => rename m into model end.
  inv_bind H Hs. inv_computes Hs C4 (predict_computes model X_test).
  match type of C4 with computes _ (Returns ?p) => rename p into y_pred end.
  inv_bind H Hs. inv_computes Hs C5 (accuracy_score_computes y_test y_pred).
  match type of C5 with computes _ (Returns ?p) => rename p into accuracy end.
  inv_bind H Hs. unfold mlflow_log_metric in Hs. inv_tracked Hs T2 H.
  inv_bind H Hs. unfold mlflow_log_metric in Hs. inv_tracked Hs T3 H.
  inv_bind H Hs. unfold mlflow_log_metric in Hs. inv_tracked Hs T4 H.
  inv_bind H Hs. unfold mlflow_sklearn_log_model in Hs. inv_tracked Hs T5 H.
  inv_bind H Hs. inv_print Hs H.
  inv_bind H Hs. inv_print Hs H.
  inv_bind H Hs. inv_print Hs H.
  inv_bind H Hs. unfold classification_report in Hs. injection Hs as <- <-.
  inv_bind H Hs. inv_print Hs H.
  injection H as <- <-.
  exists {| loc_X := X; loc_y := y; loc_X_train := X_train;
            loc_X_test := X_test; loc_y_train := y_train;
            loc_y_test := y_test; loc_model := model; loc_y_pred := y_pred;
            loc_accuracy := accuracy |}.
  split; [repeat split; assumption |].
  split; [reflexivity |].
  split; [repeat constructor; assumption |].
  cbn [events mlflow console]. rewrite <- !app_assoc.
  split; reflexivity.
Qed.

Lemma tracking_call_run (op : tracking_op) h s :
  tracking_call op h s =
  (match tracking_service h op with Some e => Raises e | None => Returns () end,
   {| console := console s; events := events s ++ [EvTracking op];
      mlflow := mlflow s |}).
Proof.
  unfold tracking_call, mbind, M_bind, log_event, ask, of_failure, raise,
    mret, M_ret.
  destruct (tracking_service h op); reflexivity.
Qed.

Lemma mlflow_end_run_run (status : run_status) h s :
  mlflow_end_run status h s =
  match tracking_service h (EndRun status) with
  | Some e =>
      (Raises e, {| console := console s;
                    events := events s ++ [EvTracking (EndRun status)];
                    mlflow := mlflow s |})
  | None => (Returns (), ended status s)
  end.
Proof. unfold mlflow_end_run. rewrite tracked_update_run. reflexivity. Qed.

Lemma with_start_run_run {A} (body : M A) h s :
  with_start_run body h s =
  match tracking_service h StartRun with
  | Some e =>
      (Raises e, {| console := console s;
                    events := events s ++ [EvTracking StartRun];
                    mlflow := mlflow s |})
  | None => run_then_exit body h (started s)
  end.
Proof.
  unfold with_start_run, mbind, M_bind. rewrite tracking_call_run.
  destruct (tracking_service h StartRun); reflexivity.
Qed.

Lemma with_start_run_Returns_inv {A} (body : M A) h s a s' :
  with_start_run body h s = (Returns a, s') ->
  tracking_service h StartRun = None /\
  tracking_service h (EndRun FINISHED) = None /\
  exists s2, body h (started s) = (Returns a, s2) /\ s' = ended FINISHED s2.
Proof.
  rewrite with_start_run_run.
  destruct (tracking_service h StartRun); [discriminate |].
  unfold run_then_exit.
  destruct (body h (started s)) as [[a' | e] s2].
  - intros H. inv_bind H Hs. rewrite mlflow_end_run_run in Hs.
    destruct (tracking_service h (EndRun FINISHED)); [discriminate |].
    injection Hs as _ <-. injection H as <- <-. eauto.
  - intros H. inv_bind H Hs. discriminate H.
Qed.

(** A run of [train_model] that returns: the probe returned, every tracking
    operation succeeded, and the result and the tracking store are those of
    the locals. *)
Lemma train_model_Returns_inv h s a s' :
  train_model h s = (Returns a, s') ->
  exists env_info s1 v,
    detect_compute_environment h s = (Returns env_info, s1) /\
    evaluated v /\ a = loc_accuracy v /\
    Forall (fun op => tracking_service h op = None) (tracking_ops h) /\
    events s' = events s1 ++ map EvTracking (tracking_ops h) /\
    mlflow s' = final_mlflow h env_info v (mlflow s).
Proof.
  intros H. unfold train_model in H.
  inv_bind H Hdetect.
  match type of Hdetect with _ = (Returns ?e, ?t) =>
    rename e into env_info; rename t into s1 end.
  inv_bind H Hs. apply getitem_Returns_inv in Hs as [_ ->].
  inv_bind H Hs. apply getitem_Returns_inv in Hs as [_ ->].
  inv_bind H Hs. inv_print Hs H.
  inv_bind H Hs. apply getitem_Returns_inv in Hs as [_ ->].
  inv_bind H Hs. inv_print Hs H.
  inv_bind H Hs. apply getitem_Returns_inv in Hs as [_ ->].
  inv_bind H Hs. inv_print Hs H.
  inv_bind H Hs. rewrite os_getenv_run in Hs. injection Hs as <- <-.
  inv_bind H Hs. unfold mlflow_set_tracking_uri in Hs. inv_tracked Hs T1 H.
  inv_bind H Hs. unfold mlflow_set_experiment in Hs. inv_tracked Hs T2 H.
  apply with_start_run_Returns_inv in H as (T3 & T4 & s2 & H & ->).
  apply tracked_run_Returns_inv in H as (v & Hv & -> & Tbody & Hev & Hml).
  exists env_info, s1, v.
  pose proof (detect_preserves_mlflow _ _ _ _ Hdetect) as Hm.
  split; [exact Hdetect |]. split; [assumption |]. split; [reflexivity |].
  split.
  { unfold body_ops in Tbody.
    repeat match type of Tbody with
    | Forall _ (_ :: _) => apply Forall_cons in Tbody as [? Tbody]
    end.
    unfold tracking_ops. constructor; [exact T1 |].
    repeat (constructor; [assumption |]). constructor. }
  unfold ended. cbn [events mlflow]. rewrite Hml, Hev.
  unfold started, body_mlflow, final_mlflow.
  cbn [events mlflow console tracking_uri experiment active_run ended_runs
       params metrics registered_models].
  rewrite Hm. split.
  - rewrite <- !app_assoc. reflexivity.
  - reflexivity.
Qed.

(** *** A run from the front *)

(** With the shapes the library documents, lines 71-96 run through. *)
Lemma evaluated_exists `{!SklearnShapes} :
  exists v,
    evaluated v /\
    length (loc_X_train v) = 800 /\ length (loc_X_test v) = 200 /\
    length (loc_y_train v) = 800 /\ length (loc_y_test v) = 200 /\
    length (loc_y_pred v) = 200.
Proof.
  destruct (sk_make_classification 1000 10 5 2 2 (Seeded 42)) as [X y] eqn:HXy.
  pose proof (make_classification_shape 1000 10 5 2 2 (Seeded 42)) as Hshape.
  cbv zeta in Hshape. rewrite HXy in Hshape. destruct Hshape as [HX Hy].
  cbn [fst snd] in HX, Hy.
  destruct (split_data_sizes X y HX Hy)
    as (X_train & X_test & y_train & y_test & Hsplit & L1 & L2 & L3 & L4).
  set (forest := sk_build_forest 100 10 (Seeded 42) X_train y_train).
  set (model := {| n_estimators := 100; max_depth := 10;
                   random_state := Some 42%Z; estimators_ := Some forest |}).
  set (y_pred := map (sk_forest_vote forest) X_test).
  assert (Lp : length y_pred = 200).
  { unfold y_pred. rewrite length_map. exact L2. }
  exists {| loc_X := X; loc_y := y; loc_X_train := X_train;
            loc_X_test := X_test; loc_y_train := y_train;
            loc_y_test := y_test; loc_model := model; loc_y_pred := y_pred;
            loc_accuracy :=
              (Z.of_nat (count_correct y_test y_pred)
               # Pos.of_nat (length y_test))%Q |}.
  cbn [loc_X_train loc_X_test loc_y_train loc_y_test loc_y_pred].
  split; [| auto]. unfold evaluated.
  cbn [loc_X loc_y loc_X_train loc_X_test loc_y_train loc_y_test loc_model
       loc_y_pred loc_accuracy].
  split; [rewrite <- HXy; apply generate_sample_data_computes |].
  split; [exact Hsplit |].
  split.
  { unfold fit_model, fit. rewrite L1, L3.
    rewrite bool_decide_eq_true_2 by reflexivity. cbn [negb].
    apply computes_seeded. intros g. apply computes_ret. }
  split; [apply computes_ret |].
  unfold accuracy_score. rewrite L4, Lp.
  rewrite bool_decide_eq_true_2 by reflexivity. cbn [negb].
  rewrite bool_decide_eq_false_2 by discriminate.
  apply computes_ret.
Qed.

Lemma print_run line h s :
  print line h s =
  (Returns (), {| console := console s ++ [line]; events := events s;
                  mlflow := mlflow s |}).
Proof. reflexivity. Qed.

(** The store reached so far, as a variable: what follows holds from any. *)
Ltac forget_store h :=
  match goal with
  | |- context [?m h ?st] =>
      lazymatch st with
      | Build_store _ _ _ =>
          let s := fresh "s" in generalize st; intros s
      end
  end.

Ltac fwd_by tac :=
  erewrite bind_step by tac; cbv beta iota;
  try match goal with h : Host |- _ => forget_store h end.
Ltac fwd_print := fwd_by ltac:(apply print_run).
Ltac fwd_computes C := fwd_by ltac:(apply (computes_run _ _ _ _ C)).

(** A tracked call at the head of the sequence: it fails and the sequence
    ends there, or it succeeds and the sequence goes on. *)
Ltac fwd_tracked unfolder T :=
  match goal with
  | |- context [tracking_service ?h ?op] =>
      destruct (tracking_service h op) as [?e |] eqn:T;
      [ eexists; apply bind_fail; unfolder; rewrite tracked_update_run, T;
        reflexivity
      | fwd_by ltac:(unfolder; rewrite tracked_update_run, T; reflexivity) ]
  end.

(** The body of the [with] statement ends at its first failing tracking
    operation, and returns the accuracy when none fails. *)
Lemma tracked_run_run env_info h s v :
  evaluated v ->
  match first_failure (tracking_service h) body_ops with
  | Some (op, e) => exists s', tracked_run env_info h s = (Raises e, s')
  | None => exists s', tracked_run env_info h s = (Returns (loc_accuracy v), s')
  end.
Proof.
  intros (C1 & C2 & C3 & C4 & C5).
  unfold body_ops, tracked_run. cbn [first_failure].
  fwd_tracked ltac:(unfold mlflow_log_params) T1.
  fwd_print. fwd_computes C1. fwd_computes C2. fwd_print.
  fwd_computes C3. fwd_computes C4. fwd_computes C5.
  fwd_tracked ltac:(unfold mlflow_log_metric) T2.
  fwd_tracked ltac:(unfold mlflow_log_metric) T3.
  fwd_tracked ltac:(unfold mlflow_log_metric) T4.
  fwd_tracked ltac:(unfold mlflow_sklearn_log_model) T5.
  fwd_print. fwd_print. fwd_print.
  fwd_by ltac:(reflexivity). fwd_print.
  eexists. reflexivity.
Qed.

Lemma env_info_keys_elem :
  "platform" ∈ env_info_keys /\ "architecture" ∈ env_info_keys /\
  "python_version" ∈ env_info_keys /\ "gpu_available" ∈ env_info_keys /\
  "gpu_type" ∈ env_info_keys.
Proof.
  unfold env_info_keys.
  repeat split; rewrite !elem_of_union, !elem_of_singleton; tauto.
Qed.

Lemma getitem_env_info h env_info k :
  env_info = no_gpu_env h \/ env_info = cuda_env h ->
  k ∈ env_info_keys ->
  exists v, forall s, getitem env_info k h s = (Returns v, s).
Proof.
  intros Henv Hk.
  assert (Hdom : dom env_info = env_info_keys)
    by (destruct Henv as [-> | ->]; auto using no_gpu_env_dom, cuda_env_dom).
  rewrite <- Hdom in Hk. apply elem_of_dom in Hk as [v Hv].
  exists v. intros s. unfold getitem. rewrite Hv. reflexivity.
Qed.

Lemma run_then_exit_Raises {A} (body : M A) h s e s1 :
  body h s = (Raises e, s1) ->
  exists e' s',
    run_then_exit body h s = (Raises e', s') /\
    (e' = e \/ tracking_service h (EndRun FAILED) = Some e').
Proof.
  intros Hbody. unfold run_then_exit. rewrite Hbody.
  destruct (tracking_service h (EndRun FAILED)) as [e' |] eqn:T.
  - exists e'. eexists. split; [| auto].
    apply bind_fail. rewrite mlflow_end_run_run, T. reflexivity.
  - exists e. eexists. split; [| auto].
    erewrite bind_step by (rewrite mlflow_end_run_run, T; reflexivity).
    reflexivity.
Qed.

(** When the probe raises, so does [train_model]. *)
Lemma train_model_probe_raises h s e s1 :
  detect_compute_environment h s = (Raises e, s1) ->
  train_model h s = (Raises e, s1).
Proof. intros Hdetect. unfold train_model. apply bind_fail, Hdetect. Qed.

(** When the probe returns: [train_model] returns the accuracy if no
    tracking operation fails, and otherwise raises the error of the first
    one that fails, or, when that one is inside the [with] body, the error
    of ending the run as FAILED should that fail as well. *)
Lemma train_model_run h s env_info s1 v :
  detect_compute_environment h s = (Returns env_info, s1) ->
  evaluated v ->
  match first_failure (tracking_service h) (tracking_ops h) with
  | Some (op, e) =>
      exists e' s',
        train_model h s = (Raises e', s') /\
        (e' = e \/
         (op ∈ body_ops /\ tracking_service h (EndRun FAILED) = Some e'))
  | None => exists s', train_model h s = (Returns (loc_accuracy v), s')
  end.
Proof.
  intros Hdetect Hv.
  pose proof (detect_returns_env _ _ _ _ Hdetect) as Henv.
  assert (Hkey : forall k, k ∈ env_info_keys ->
            exists v, forall s, getitem env_info k h s = (Returns v, s))
    by eauto using getitem_env_info.
  destruct env_info_keys_elem as (K1 & K2 & K3 & K4 & _).
  destruct (Hkey _ K1) as [v1 G1]. destruct (Hkey _ K2) as [v2 G2].
  destruct (Hkey _ K3) as [v3 G3]. destruct (Hkey _ K4) as [v4 G4].
  clear Hkey Henv K1 K2 K3 K4.
  unfold train_model, tracking_ops. cbn [first_failure].
  fwd_by ltac:(exact Hdetect).
  fwd_by ltac:(apply G1). fwd_by ltac:(apply G2). fwd_print.
  fwd_by ltac:(apply G3). fwd_print.
  fwd_by ltac:(apply G4). fwd_print.
  fwd_by ltac:(apply os_getenv_run).
  change (default "http://localhost:5000" (environ h !! "MLFLOW_TRACKING_URI"))
    with (selected_uri h).
  destruct (tracking_service h (SetTrackingUri (selected_uri h)))
    as [e |] eqn:T1.
  { exists e. eexists. split; [| left; reflexivity].
    apply bind_fail. unfold mlflow_set_tracking_uri.
    rewrite tracked_update_run, T1. reflexivity. }
  fwd_by ltac:(unfold mlflow_set_tracking_uri;
               rewrite tracked_update_run, T1; reflexivity).
  destruct (tracking_service h (SetExperiment "universal-ml-experiment"))
    as [e |] eqn:T2.
  { exists e. eexists. split; [| left; reflexivity].
    apply bind_fail. unfold mlflow_set_experiment.
    rewrite tracked_update_run, T2. reflexivity. }
  fwd_by ltac:(unfold mlflow_set_experiment;
               rewrite tracked_update_run, T2; reflexivity).
  rewrite with_start_run_run.
  destruct (tracking_service h StartRun) as [e |] eqn:T3.
  { exists e. eexists. split; [reflexivity | left; reflexivity]. }
  match goal with
  | |- context [run_then_exit _ h ?st] =>
      pose proof (tracked_run_run env_info h st v Hv) as Hbody
  end.
  unfold body_ops in Hbody. cbn [first_failure] in Hbody.
  assert (Hin : forall op, op ∈ body_ops <->
            op = LogParams \/ op = LogMetric "accuracy" \/
            op = LogMetric "train_samples" \/ op = LogMetric "test_samples" \/
            op = LogModel "random_forest_model" "universal-ml-model").
  { intros op. unfold body_ops. rewrite !elem_of_cons, elem_of_nil. tauto. }
  repeat match type of Hbody with
  | context [tracking_service h ?op] =>
      destruct (tracking_service h op) as [e |] eqn:?;
      [ destruct Hbody as [s' Hbody];
        destruct (run_then_exit_Raises _ _ _ _ _ Hbody)
          as (e' & t' & Hexit & Hor);
        exists e', t'; (split; [exact Hexit |]);
        destruct Hor as [-> | Hend];
        [ left; reflexivity | right; split; [apply Hin; tauto | exact Hend] ]
      | ]
  end.
  destruct Hbody as [s' Hbody]. unfold run_then_exit. rewrite Hbody.
  destruct (tracking_service h (EndRun FINISHED)) as [e |] eqn:T4.
  - exists e. eexists. split; [| left; reflexivity].
    apply bind_fail. rewrite mlflow_end_run_run, T4. reflexivity.
  - eexists.
    erewrite bind_step by (rewrite mlflow_end_run_run, T4; reflexivity).
    reflexivity.
Qed.

(** What the locals are, spelled out: the seeded dataset, the classifier
    with its three constructor arguments and the forest grown on the
    training split, its votes on the test split, and the fraction of them
    that agree with the test labels. *)
Lemma evaluated_locals (v : locals) :
  evaluated v ->
  (loc_X v, loc_y v) = sk_make_classification 1000 10 5 2 2 (Seeded 42) /\
  loc_model v =
    {| n_estimators := 100; max_depth := 10; random_state := Some 42%Z;
       estimators_ :=
         Some (sk_build_forest 100 10 (Seeded 42)
                 (loc_X_train v) (loc_y_train v)) |} /\
  loc_y_pred v =
    map (sk_forest_vote
           (sk_build_forest 100 10 (Seeded 42)
              (loc_X_train v) (loc_y_train v)))
        (loc_X_test v) /\
  loc_accuracy v =
    (Z.of_nat (count_correct (loc_y_test v) (loc_y_pred v))
     # Pos.of_nat (length (loc_y_test v)))%Q.
Proof.
  intros (C1 & C2 & C3 & C4 & C5).
  pose proof (computes_inj _ _ _ C1 generate_sample_data_computes) as [= HXy].
  assert (Hmodel : loc_model v =
    {| n_estimators := 100; max_depth := 10; random_state := Some 42%Z;
       estimators_ :=
         Some (sk_build_forest 100 10 (Seeded 42)
                 (loc_X_train v) (loc_y_train v)) |}).
  { specialize (C3 Toy.cpu_host initial_store).
    unfold fit_model, fit in C3. destruct (negb _); [discriminate |].
    injection C3 as <-. reflexivity. }
  assert (Hpred : loc_y_pred v =
    map (sk_forest_vote
           (sk_build_forest 100 10 (Seeded 42)
              (loc_X_train v) (loc_y_train v)))
        (loc_X_test v)).
  { specialize (C4 Toy.cpu_host initial_store).
    unfold predict in C4. rewrite Hmodel in C4. cbn [estimators_] in C4.
    injection C4 as <-. reflexivity. }
  repeat split; try assumption.
  specialize (C5 Toy.cpu_host initial_store). unfold accuracy_score in C5.
  destruct (negb _); [discriminate |].
  destruct (bool_decide _); [discriminate |].
  injection C5 as <-. reflexivity.
Qed.

(** C2.  For the 1000 samples and the test fraction 0.2 of the script, the
    split has exactly 800 training and 200 test samples, and these are the
    values a run logs as [train_samples] and [test_samples]. *)
Theorem split_is_800_200 `{!SklearnShapes} (h : Host) (s : store) :
  (exists X y X_train X_test y_train y_test,
     generate_sample_data h s = (Returns (X, y), s) /\
     split_data X y h s = (Returns (X_train, X_test, y_train, y_test), s) /\
     length X_train = 800 /\ length X_test = 200 /\
     length y_train = 800 /\ length y_test = 200) /\
  (forall a s',
     train_model h s = (Returns a, s') ->
     metrics (mlflow s') !! "train_samples" = Some 800%Q /\
     metrics (mlflow s') !! "test_samples" = Some 200%Q).
Proof.
  destruct evaluated_exists as (v & Hv & L1 & L2 & L3 & L4 & _).
  split.
  - destruct Hv as (C1 & C2 & _).
    exists (loc_X v), (loc_y v), (loc_X_train v), (loc_X_test v),
      (loc_y_train v), (loc_y_test v).
    rewrite (C1 h s), (C2 h s). auto 10.
  - intros a s' Hrun.
    apply train_model_Returns_inv in Hrun
      as (env_info & s1 & v' & _ & Hv' & _ & _ & _ & Hml).
    rewrite (evaluated_unique _ _ Hv' Hv) in Hml. rewrite Hml.
    unfold final_mlflow, py_len. cbn [metrics]. rewrite L1, L2.
    split.
    + rewrite lookup_insert_ne by discriminate. apply lookup_insert_eq.
    + apply lookup_insert_eq.
Qed.


(** C4.  The accuracy is between 0 and 1: for any labels and any
    predictions of 200 elements [accuracy_score] returns such a value, and
    so is whatever [train_model] returns. *)
Theorem accuracy_in_unit_interval :
  (forall (y_true y_pred : list nat) (h : Host) (s : store),
     length y_true = 200 -> length y_pred = 200 ->
     exists a, accuracy_score y_true y_pred h s = (Returns a, s) /\
               (0 <= a)%Q /\ (a <= 1)%Q) /\
  (forall (h : Host) (s s' : store) (a : Q),
     train_model h s = (Returns a, s') -> (0 <= a)%Q /\ (a <= 1)%Q).
Proof.
  split.
  - intros y_true y_pred h s Ht Hp.
    destruct (accuracy_score y_true y_pred h s) as [r t] eqn:Hrun.
    pose proof Hrun as Hrun'. unfold accuracy_score in Hrun'.
    rewrite Ht, Hp in Hrun'.
    rewrite bool_decide_eq_true_2 in Hrun' by reflexivity.
    rewrite bool_decide_eq_false_2 in Hrun' by discriminate.
    cbn [negb] in Hrun'. injection Hrun' as <- <-.
    eexists. split; [reflexivity |].
    eapply accuracy_score_range, Hrun.
  - intros h s s' a Hrun.
    apply train_model_Returns_inv in Hrun
      as (env_info & s1 & v & _ & Hv & -> & _).
    destruct Hv as (_ & _ & _ & _ & C5).
    eapply accuracy_score_range, (C5 h s).
Qed.

(** C8.  GPU detection does not reach the training: whatever record the
    body of the run is given, and on whatever hosts, two runs that return
    computed the same locals, so the same classifier, built with
    [n_estimators=100], [max_depth=10], [random_state=42], and the same
    accuracy; the same holds for two whole runs of [train_model], whose
    registered model is that classifier. *)
Theorem training_ignores_gpu_detection :
  (forall (env1 env2 : gmap string pyvalue) (h1 h2 : Host)
          (s1 s2 t1 t2 : store) (a1 a2 : Q),
     tracked_run env1 h1 s1 = (Returns a1, t1) ->
     tracked_run env2 h2 s2 = (Returns a2, t2) ->
     a1 = a2 /\
     exists model,
       n_estimators model = 100 /\ max_depth model = 10 /\
       random_state model = Some 42%Z /\
       registered_models (mlflow t1) =
         registered_models (mlflow s1)
         ++ [("random_forest_model", "universal-ml-model", model)] /\
       registered_models (mlflow t2) =
         registered_models (mlflow s2)
         ++ [("random_forest_model", "universal-ml-model", model)]) /\
  (forall (h1 h2 : Host) (s1 s2 t1 t2 : store) (a1 a2 : Q),
     train_model h1 s1 = (Returns a1, t1) ->
     train_model h2 s2 = (Returns a2, t2) ->
     a1 = a2 /\
     exists model,
       n_estimators model = 100 /\ max_depth model = 10 /\
       random_state model = Some 42%Z /\
       registered_models (mlflow t1) =
         registered_models (mlflow s1)
         ++ [("random_forest_model", "universal-ml-model", model)] /\
       registered_models (mlflow t2) =
         registered_models (mlflow s2)
         ++ [("random_forest_model", "universal-ml-model", model)]).
Proof.
  split.
  - intros env1 env2 h1 h2 s1 s2 t1 t2 a1 a2 H1 H2.
    apply tracked_run_Returns_inv in H1 as (v & Hv & -> & _ & _ & Hm1).
    apply tracked_run_Returns_inv in H2 as (v' & Hv' & -> & _ & _ & Hm2).
    rewrite (evaluated_unique _ _ Hv' Hv) in *.
    split; [reflexivity |]. exists (loc_model v).
    destruct (evaluated_locals v Hv) as (_ & Hmodel & _).
    rewrite Hm1, Hm2, Hmodel. unfold body_mlflow.
    cbn [registered_models n_estimators max_depth random_state].
    rewrite Hmodel. auto.
  - intros h1 h2 s1 s2 t1 t2 a1 a2 H1 H2.
    apply train_model_Returns_inv in H1
      as (e1 & u1 & v & _ & Hv & -> & _ & _ & Hm1).
    apply train_model_Returns_inv in H2
      as (e2 & u2 & v' & _ & Hv' & -> & _ & _ & Hm2).
    rewrite (evaluated_unique _ _ Hv' Hv) in *.
    split; [reflexivity |]. exists (loc_model v).
    destruct (evaluated_locals v Hv) as (_ & Hmodel & _).
    rewrite Hm1, Hm2, Hmodel. unfold final_mlflow.
    cbn [registered_models n_estimators max_depth random_state].
    rewrite Hmodel. auto.
Qed.


(** C9.  The endpoint is the value of [MLFLOW_TRACKING_URI], or
    [http://localhost:5000] when the variable is unset: it is the URI the
    client is set to.  No failure of a tracking operation is handled: a run
    that returns had none, and when one fails the run raises, with the
    error of the first failing operation or, when that one is inside the
    [with] body, with the error of ending the run as FAILED should that
    fail too; run as a script, the process ends with that uncaught error. *)
Theorem tracking_failure_is_fatal (h : Host) :
  (environ h !! "MLFLOW_TRACKING_URI" = None ->
   selected_uri h = "http://localhost:5000") /\
  (forall uri, environ h !! "MLFLOW_TRACKING_URI" = Some uri ->
               selected_uri h = uri) /\
  (forall s a s',
     train_model h s = (Returns a, s') ->
     tracking_uri (mlflow s') = Some (selected_uri h) /\
     Forall (fun op => tracking_service h op = None) (tracking_ops h)) /\
  (forall s env_info s1 op e,
     SklearnShapes ->
     detect_compute_environment h s = (Returns env_info, s1) ->
     first_failure (tracking_service h) (tracking_ops h) = Some (op, e) ->
     exists e' s',
       train_model h s = (Raises e', s') /\
       (s = initial_store -> run_script h = (UncaughtException e', s')) /\
       (e' = e \/
        (op ∈ body_ops /\ tracking_service h (EndRun FAILED) = Some e'))).
Proof.
  split; [| split; [| split]].
  - intros Henv. unfold selected_uri. rewrite Henv. reflexivity.
  - intros uri Henv. unfold selected_uri. rewrite Henv. reflexivity.
  - intros s a s' Hrun.
    apply train_model_Returns_inv in Hrun
      as (env_info & s1 & v & _ & _ & _ & Hall & _ & Hml).
    rewrite Hml. split; [reflexivity | exact Hall].
  - intros s env_info s1 op e Hshapes Hdetect Hfail.
    destruct evaluated_exists as (v & Hv & _).
    pose proof (train_model_run h s env_info s1 v Hdetect Hv) as Hfwd.
    rewrite Hfail in Hfwd. destruct Hfwd as (e' & s' & Hrun & Hor).
    exists e', s'. split; [exact Hrun |]. split; [| exact Hor].
    intros ->. unfold run_script. rewrite Hrun. reflexivity.
Qed.

(** ** Further properties of the training run *)

(** *** Going through the tracking operations *)

Lemma steps_pure {A} (m : M A) :
  (forall h s, events (m h s).2 = events s /\ mlflow (m h s).2 = mlflow s) ->
  steps [] m.
Proof.
  intros Hm h s. destruct (Hm h s) as [He Hml]. exists [].
  rewrite He, Hml, app_nil_r. auto.
Qed.

Lemma steps_ret {A} (a : A) : steps [] (mret a).
Proof. apply steps_pure. auto. Qed.

Lemma steps_print line : steps [] (print line).
Proof. apply steps_pure. auto. Qed.

Lemma steps_computes {A} (m : M A) : (exists r, computes m r) -> steps [] m.
Proof. intros [r Hr]. apply steps_pure. intros h s. rewrite (Hr h s). auto. Qed.

Lemma steps_getitem d k : steps [] (getitem d k).
Proof.
  apply steps_pure. intros h s. unfold getitem. destruct (d !! k); auto.
Qed.

Lemma steps_tracked (op : tracking_op) f :
  (forall m, active_run (f m) = active_run m /\
             ended_runs (f m) = ended_runs m) ->
  steps [op] (tracking_call op;; update_mlflow f).
Proof.
  intros Hf h s. rewrite tracked_update_run.
  destruct (tracking_service h op);
    (exists [op]; split; [reflexivity |]);
    cbn [fst snd events mlflow map]; destruct (Hf (mlflow s)); auto.
Qed.

Lemma steps_bind {A B} ops1 ops2 (m : M A) (k : A -> M B) :
  steps ops1 m -> (forall a, steps ops2 (k a)) -> steps (ops1 ++ ops2) (m ≫= k).
Proof.
  intros Hm Hk h s. destruct (Hm h s) as (d1 & Hp1 & He1 & Hr1 & Ha1 & Hn1).
  unfold mbind, M_bind. destruct (m h s) as [[a | e] s1]; cbn [fst snd] in *.
  - destruct (Hk a h s1) as (d2 & Hp2 & He2 & Hr2 & Ha2 & Hn2).
    rewrite (Hr1 a eq_refl) in He1.
    exists (ops1 ++ d2). split; [apply prefix_app, Hp2 |].
    rewrite He2, He1, map_app, app_assoc, Ha2, Hn2.
    repeat split; try assumption.
    intros b Hb. rewrite (Hr2 b Hb). reflexivity.
  - exists d1. split; [apply prefix_app_r, Hp1 |].
    repeat split; try assumption. discriminate.
Qed.

Lemma tracked_run_steps env_info : steps body_ops (tracked_run env_info).
Proof.
  unfold tracked_run, body_ops.
  apply (steps_bind [_] _); [apply steps_tracked; auto | intros _].
  apply (steps_bind [] _); [apply steps_print | intros _].
  apply (steps_bind [] _);
    [apply steps_computes; eexists; apply generate_sample_data_computes |].
  intros [X y].
  apply (steps_bind [] _);
    [apply steps_computes, split_data_computes |].
  intros [[[X_train X_test] y_train] y_test].
  apply (steps_bind [] _); [apply steps_print | intros _].
  apply (steps_bind [] _);
    [apply steps_computes, fit_model_computes | intros model].
  apply (steps_bind [] _);
    [apply steps_computes, predict_computes | intros y_pred].
  apply (steps_bind [] _);
    [apply steps_computes, accuracy_score_computes | intros accuracy].
  apply (steps_bind [_] _); [apply steps_tracked; auto | intros _].
  apply (steps_bind [_] _); [apply steps_tracked; auto | intros _].
  apply (steps_bind [_] _); [apply steps_tracked; auto | intros _].
  apply (steps_bind [_] _); [apply steps_tracked; auto | intros _].
  apply (steps_bind [] _); [apply steps_print | intros _].
  apply (steps_bind [] _); [apply steps_print | intros _].
  apply (steps_bind [] _); [apply steps_print | intros _].
  apply (steps_bind [] _); [apply steps_ret | intros report].
  apply (steps_bind [] _); [apply steps_print | intros _].
  apply steps_ret.
Qed.

(** The [with] statement around a body that goes through [ops]. *)
Lemma with_start_run_any {A} (body : M A) ops h s :
  steps ops body ->
  exists calls,
    events (with_start_run body h s).2 = events s ++ map EvTracking calls /\
    (calls `prefix_of` StartRun :: ops ++ [EndRun FINISHED] \/
     exists done, done `prefix_of` ops /\
                  calls = StartRun :: done ++ [EndRun FAILED]) /\
    (forall a, (with_start_run body h s).1 = Returns a ->
               calls = StartRun :: ops ++ [EndRun FINISHED]) /\
    run_record_ok h (with_start_run body h s).1 (mlflow s)
      (mlflow (with_start_run body h s).2).
Proof.
  intros Hbody. rewrite with_start_run_run.
  destruct (tracking_service h StartRun) as [e |] eqn:T0.
  { exists [StartRun]. cbn [fst snd events mlflow map run_record_ok].
    split; [reflexivity |]. split; [left; eexists; reflexivity |].
    split; [discriminate |]. auto. }
  unfold run_then_exit.
  destruct (Hbody h (started s)) as (done & Hp & He & Hr & Ha & Hn).
  destruct (body h (started s)) as [[a | e] s2]; cbn [fst snd] in *;
    unfold mbind, M_bind; rewrite mlflow_end_run_run.
  - rewrite (Hr a eq_refl) in He.
    exists (StartRun :: ops ++ [EndRun FINISHED]).
    destruct (tracking_service h (EndRun FINISHED)) as [e |] eqn:T1;
      cbn [fst snd events mlflow ended map run_record_ok ended_runs
           active_run mret M_ret];
      rewrite He; cbn [started events mlflow ended_runs active_run] in *;
      (split; [rewrite map_app, <- !app_assoc; reflexivity |]);
      (split; [left; reflexivity |]).
    + split; [reflexivity |]. rewrite Hn. split; [auto |]. congruence.
    + rewrite Hn. auto.
  - exists (StartRun :: done ++ [EndRun FAILED]).
    destruct (tracking_service h (EndRun FAILED)) as [e' |] eqn:T1;
      cbn [fst snd events mlflow ended map run_record_ok ended_runs
           active_run raise];
      rewrite He; cbn [started events mlflow ended_runs active_run] in *;
      (split; [rewrite map_app, <- !app_assoc; reflexivity |]);
      (split; [right; eauto |]); (split; [discriminate |]).
    + rewrite Hn. split; [auto |]. congruence.
    + rewrite Hn. auto.
Qed.

Lemma tracked_update_fails (op : tracking_op) f h s e :
  tracking_service h op = Some e ->
  (tracking_call op;; update_mlflow f) h s =
  (Raises e, {| console := console s; events := events s ++ [EvTracking op];
                mlflow := mlflow s |}).
Proof. intros T. rewrite tracked_update_run, T. reflexivity. Qed.

Lemma tracked_update_succeeds (op : tracking_op) f h s :
  tracking_service h op = None ->
  (tracking_call op;; update_mlflow f) h s =
  (Returns (), {| console := console s; events := events s ++ [EvTracking op];
                  mlflow := f (mlflow s) |}).
Proof. intros T. rewrite tracked_update_run, T. reflexivity. Qed.

(** The part of [train_model] after the prints: the setup of the client
    and the tracked run. *)
Lemma tracked_part_any env_info h s :
  let m := mlflow_set_tracking_uri (selected_uri h);;
           mlflow_set_experiment "universal-ml-experiment";;
           with_start_run (tracked_run env_info) in
  exists calls,
    events (m h s).2 = events s ++ map EvTracking calls /\
    run_calls_ok h calls /\
    (forall a, (m h s).1 = Returns a -> calls = tracking_ops h) /\
    run_record_ok h (m h s).1 (mlflow s) (mlflow (m h s).2).
Proof.
  cbv zeta.
  destruct (tracking_service h (SetTrackingUri (selected_uri h)))
    as [e |] eqn:T1.
  { erewrite bind_fail
      by (unfold mlflow_set_tracking_uri; apply tracked_update_fails, T1).
    exists [SetTrackingUri (selected_uri h)].
    cbn [fst snd events mlflow map run_record_ok].
    split; [reflexivity |]. split; [left; eexists; reflexivity |].
    split; [discriminate |]. auto. }
  erewrite bind_step
    by (unfold mlflow_set_tracking_uri; apply tracked_update_succeeds, T1).
  destruct (tracking_service h (SetExperiment "universal-ml-experiment"))
    as [e |] eqn:T2.
  { erewrite bind_fail
      by (unfold mlflow_set_experiment; apply tracked_update_fails, T2).
    exists [SetTrackingUri (selected_uri h);
            SetExperiment "universal-ml-experiment"].
    cbn [fst snd events mlflow map run_record_ok ended_runs active_run].
    split; [rewrite <- app_assoc; reflexivity |].
    split; [left; eexists; reflexivity |].
    split; [discriminate |]. auto. }
  erewrite bind_step
    by (unfold mlflow_set_experiment; apply tracked_update_succeeds, T2).
  match goal with
  | |- context [with_start_run _ h ?st] =>
      remember st as st0 eqn:Hst;
      destruct (with_start_run_any (tracked_run env_info) body_ops h st0
                  (tracked_run_steps env_info))
        as (calls & He & Hc & Hr & Hrec)
  end.
  assert (Hst_events : events st0 =
            events s ++ [EvTracking (SetTrackingUri (selected_uri h));
                         EvTracking (SetExperiment "universal-ml-experiment")])
    by (subst st0; cbn [events]; rewrite <- app_assoc; reflexivity).
  assert (Hst_ended : ended_runs (mlflow st0) = ended_runs (mlflow s))
    by (subst st0; reflexivity).
  assert (Hst_active : active_run (mlflow st0) = active_run (mlflow s))
    by (subst st0; reflexivity).
  clear Hst. rewrite Hst_events in He.
  unfold run_record_ok in *. rewrite Hst_ended, Hst_active in Hrec.
  exists (SetTrackingUri (selected_uri h)
          :: SetExperiment "universal-ml-experiment" :: calls).
  split; [rewrite He, <- !app_assoc; reflexivity |].
  split; [| split].
  - destruct Hc as [Hc | (done & Hd & ->)].
    + left. unfold tracking_ops. do 2 apply prefix_cons. exact Hc.
    + right. exists done. split; [exact Hd | reflexivity].
  - intros a Ha. rewrite (Hr a Ha). reflexivity.
  - destruct (with_start_run _ _ _).1; exact Hrec.
Qed.

(** Every run of [train_model], however it ends. *)
Lemma train_model_any h s :
  exists calls,
    events (train_model h s).2
    = events (detect_compute_environment h s).2 ++ map EvTracking calls /\
    run_calls_ok h calls /\
    (forall a, (train_model h s).1 = Returns a -> calls = tracking_ops h) /\
    run_record_ok h (train_model h s).1 (mlflow s)
      (mlflow (train_model h s).2).
Proof.
  destruct (detect_compute_environment h s) as [[env_info | e] s1] eqn:Hd.
  - pose proof (detect_returns_env _ _ _ _ Hd) as Henv.
    pose proof (detect_preserves_mlflow _ _ _ _ Hd) as Hml.
    destruct env_info_keys_elem as (K1 & K2 & K3 & K4 & _).
    destruct (getitem_env_info h env_info _ Henv K1) as [v1 G1].
    destruct (getitem_env_info h env_info _ Henv K2) as [v2 G2].
    destruct (getitem_env_info h env_info _ Henv K3) as [v3 G3].
    destruct (getitem_env_info h env_info _ Henv K4) as [v4 G4].
    clear Henv K1 K2 K3 K4.
    unfold train_model. rewrite (bind_step _ _ _ _ _ _ Hd).
    erewrite bind_step by apply G1. erewrite bind_step by apply G2.
    erewrite bind_step by apply print_run.
    erewrite bind_step by apply G3. erewrite bind_step by apply print_run.
    erewrite bind_step by apply G4. erewrite bind_step by apply print_run.
    erewrite bind_step by apply os_getenv_run.
    change (default "http://localhost:5000"
              (environ h !! "MLFLOW_TRACKING_URI")) with (selected_uri h).
    match goal with
    | |- context [?m h ?st] =>
        lazymatch st with
        | Build_store _ _ _ => remember st as st0 eqn:Hst
        end
    end.
    assert (Hst_events : events st0 = events s1) by (subst st0; reflexivity).
    assert (Hst_mlflow : mlflow st0 = mlflow s) by (subst st0; exact Hml).
    clear Hst.
    destruct (tracked_part_any env_info h st0) as (calls & He & Hc & Hr & Hrec).
    rewrite Hst_events, Hst_mlflow in *.
    exists calls. cbn [snd]. auto.
  - rewrite (train_model_probe_raises _ _ _ _ Hd).
    pose proof (detect_preserves_mlflow _ _ _ _ Hd) as Hml.
    exists []. cbn [fst snd map run_record_ok]. rewrite app_nil_r, Hml.
    split; [reflexivity |]. split; [left; apply prefix_nil |].
    split; [discriminate |]. auto.
Qed.

(** X4.  The tracking calls of a run come in one fixed order, after the
    probe: whatever a run of [train_model] does, its calls to the tracking
    service are a prefix of set-URI, set-experiment, start-run, log-params,
    the three log-metric calls, log-model, end-run(FINISHED), or the setup,
    a prefix of the body's calls and end-run(FAILED); a run that returns
    made all of the first sequence.  So no metric is logged before the
    parameters, no model is registered before the metrics, and after a
    failure nothing is called but the end of the run. *)
Theorem tracking_calls_in_order (h : Host) (s s' : store) (r : outcome Q) :
  train_model h s = (r, s') ->
  exists probe_calls calls,
    events (detect_compute_environment h s).2 = events s ++ probe_calls /\
    events s' = events s ++ probe_calls ++ map EvTracking calls /\
    run_calls_ok h calls /\
    (forall a, r = Returns a -> calls = tracking_ops h).
Proof.
  intros Hrun.
  destruct (train_model_any h s) as (calls & He & Hc & Hr & _).
  rewrite Hrun in He, Hr. cbn [fst snd] in He, Hr.
  destruct (detect_path h s) as (r0 & evs & lines & _ & t & Ht & _ & Hev & _).
  rewrite Ht in He |- *. cbn [snd] in He |- *.
  exists evs, calls. rewrite He, Hev, <- app_assoc. auto.
Qed.

(** X5.  The run record is kept straight: a run of [train_model] that
    returns has recorded exactly one more run, FINISHED, and no run is
    active; one that raises has recorded nothing or one FAILED run, never
    a FINISHED one, and unless ending the run is itself what fails, no run
    is left active that was not active before. *)
Theorem run_is_ended_as_it_went (h : Host) (s s' : store) (r : outcome Q) :
  train_model h s = (r, s') ->
  match r with
  | Returns _ =>
      ended_runs (mlflow s') = ended_runs (mlflow s) ++ [FINISHED] /\
      active_run (mlflow s') = false
  | Raises _ =>
      (ended_runs (mlflow s') = ended_runs (mlflow s) \/
       ended_runs (mlflow s') = ended_runs (mlflow s) ++ [FAILED]) /\
      (tracking_service h (EndRun FINISHED) = None ->
       tracking_service h (EndRun FAILED) = None ->
       active_run (mlflow s') = false \/
       active_run (mlflow s') = active_run (mlflow s))
  end.
Proof.
  intros Hrun.
  destruct (train_model_any h s) as (calls & _ & _ & _ & Hrec).
  rewrite Hrun in Hrec. exact Hrec.
Qed.




(** X8.  What a successful script run leaves in a fresh tracking store:
    the experiment is set, the parameters are the five fields of the
    environment record, the metrics are [accuracy], [train_samples] and
    [test_samples], the accuracy logged is the one returned, and exactly
    one model is registered, under [universal-ml-model]. *)
Theorem successful_run_record (h : Host) (s' : store) :
  run_script h = (ExitSuccess, s') ->
  experiment (mlflow s') = Some "universal-ml-experiment" /\
  dom (params (mlflow s')) = env_info_keys /\
  dom (metrics (mlflow s'))
  = {[ "accuracy"; "train_samples"; "test_samples" ]} /\
  (exists a, train_model h initial_store = (Returns a, s') /\
             metrics (mlflow s') !! "accuracy" = Some a) /\
  exists model,
    registered_models (mlflow s')
    = [("random_forest_model", "universal-ml-model", model)].
Proof.
  unfold run_script.
  destruct (train_model h initial_store) as [[a | e] t] eqn:Hrun;
    [| discriminate].
  intros [= <-].
  pose proof Hrun as Hinv.
  apply train_model_Returns_inv in Hinv
    as (env_info & s1 & v & Hd & Hv & -> & _ & _ & Hml).
  assert (Hdom : dom env_info = env_info_keys).
  { destruct (detect_returns_env _ _ _ _ Hd) as [-> | ->];
      auto using no_gpu_env_dom, cuda_env_dom. }
  rewrite Hml. unfold final_mlflow.
  cbn [experiment params metrics registered_models initial_store mlflow
       empty_mlflow].
  split; [reflexivity |]. split.
  { rewrite dom_union_L, dom_fmap_L, dom_empty_L, Hdom.
    apply (right_id_L ∅ (∪)). }
  split.
  { rewrite !dom_insert_L, dom_empty_L. set_solver. }
  split.
  { exists (loc_accuracy v). split; [reflexivity |].
    rewrite !lookup_insert_ne by discriminate. apply lookup_insert_eq. }
  exists (loc_model v). reflexivity.
Qed.




(** *** When a model is registered *)

(** Steps of a run held in hypothesis [H], with the store kept. *)
Ltac run_op H op unfolder T :=
  match type of H with
  | _ ?h _ = _ =>
      destruct (tracking_service h op) as [?e |] eqn:T;
      [ erewrite bind_fail in H
          by (unfolder; apply tracked_update_fails, T);
        injection H as <- <-; left; reflexivity
      | erewrite bind_step in H
          by (unfolder; apply tracked_update_succeeds, T);
        flatten_store H ]
  end.

Ltac run_print H :=
  erewrite bind_step in H by apply print_run; flatten_store H.

Ltac run_pure H lem x C :=
  destruct lem as [[x | ?e] C];
  [ erewrite bind_step in H by apply (computes_run _ _ _ _ C);
    cbv beta iota in H
  | erewrite bind_fail in H by apply (computes_run _ _ _ _ C);
    injection H as <- <-; left; reflexivity ].

(** The body registers the model only at its end, after every one of its
    tracking operations succeeded. *)
Lemma tracked_run_registers env_info h s r s' :
  tracked_run env_info h s = (r, s') ->
  registered_models (mlflow s') = registered_models (mlflow s) \/
  (Forall (fun op => tracking_service h op = None) body_ops /\
   exists a, r = Returns a).
Proof.
  intros H. unfold tracked_run in H.
  run_op H LogParams ltac:(unfold mlflow_log_params) T1.
  run_print H.
  run_pure H (ex_intro (fun r => computes generate_sample_data r) _
                generate_sample_data_computes) p C1.
  destruct p as [X y]. cbv beta iota in H.
  run_pure H (split_data_computes X y) p C2.
  destruct p as [[[X_train X_test] y_train] y_test]. cbv beta iota in H.
  run_print H.
  run_pure H (fit_model_computes X_train y_train) model C3.
  run_pure H (predict_computes model X_test) y_pred C4.
  run_pure H (accuracy_score_computes y_test y_pred) accuracy C5.
  run_op H (LogMetric "accuracy") ltac:(unfold mlflow_log_metric) T2.
  run_op H (LogMetric "train_samples") ltac:(unfold mlflow_log_metric) T3.
  run_op H (LogMetric "test_samples") ltac:(unfold mlflow_log_metric) T4.
  run_op H (LogModel "random_forest_model" "universal-ml-model")
    ltac:(unfold mlflow_sklearn_log_model) T5.
  run_print H. run_print H. run_print H.
  erewrite bind_step in H by reflexivity. run_print H.
  injection H as <- <-. right. split; [| eauto].
  unfold body_ops. repeat (constructor; [assumption |]). constructor.
Qed.

Lemma run_then_exit_registered {A} (body : M A) h s :
  registered_models (mlflow (run_then_exit body h s).2)
  = registered_models (mlflow (body h s).2).
Proof.
  unfold run_then_exit. destruct (body h s) as [[a | e] s2];
    unfold mbind, M_bind; rewrite mlflow_end_run_run;
    destruct (tracking_service h _); reflexivity.
Qed.

(** X10.  A model is registered only by a run that logged everything
    before it: if a run of [train_model], however it ends, changes the
    list of registered models, then the setup of the client, the start of
    the run, the logging of the parameters and of all three metrics and
    the registration itself all succeeded.  A failure of any of them leaves
    the registered models as they were. *)
Theorem model_registered_only_after_metrics (h : Host) (s s' : store)
    (r : outcome Q) :
  train_model h s = (r, s') ->
  registered_models (mlflow s') = registered_models (mlflow s) \/
  Forall (fun op => tracking_service h op = None) (setup_ops h ++ body_ops).
Proof.
  intros H.
  destruct (detect_compute_environment h s) as [[env_info | e0] s1] eqn:Hd.
  - pose proof (detect_returns_env _ _ _ _ Hd) as Henv.
    pose proof (detect_preserves_mlflow _ _ _ _ Hd) as Hml.
    destruct env_info_keys_elem as (K1 & K2 & K3 & K4 & _).
    destruct (getitem_env_info h env_info _ Henv K1) as [v1 G1].
    destruct (getitem_env_info h env_info _ Henv K2) as [v2 G2].
    destruct (getitem_env_info h env_info _ Henv K3) as [v3 G3].
    destruct (getitem_env_info h env_info _ Henv K4) as [v4 G4].
    clear Henv K1 K2 K3 K4.
    unfold train_model in H. rewrite (bind_step _ _ _ _ _ _ Hd) in H.
    erewrite bind_step in H by apply G1. erewrite bind_step in H by apply G2.
    run_print H.
    erewrite bind_step in H by apply G3. run_print H.
    erewrite bind_step in H by apply G4. run_print H.
    erewrite bind_step in H by apply os_getenv_run.
    change (default "http://localhost:5000"
              (environ h !! "MLFLOW_TRACKING_URI")) with (selected_uri h) in H.
    rewrite <- Hml.
    destruct (tracking_service h (SetTrackingUri (selected_uri h)))
      as [e |] eqn:T1;
      [ erewrite bind_fail in H
          by (unfold mlflow_set_tracking_uri; apply tracked_update_fails, T1);
        injection H as <- <-; left; reflexivity
      | erewrite bind_step in H
          by (unfold mlflow_set_tracking_uri;
              apply tracked_update_succeeds, T1);
        flatten_store H ].
    destruct (tracking_service h (SetExperiment "universal-ml-experiment"))
      as [e |] eqn:T2;
      [ erewrite bind_fail in H
          by (unfold mlflow_set_experiment; apply tracked_update_fails, T2);
        injection H as <- <-; left; reflexivity
      | erewrite bind_step in H
          by (unfold mlflow_set_experiment;
              apply tracked_update_succeeds, T2);
        flatten_store H ].
    rewrite with_start_run_run in H.
    destruct (tracking_service h StartRun) as [e |] eqn:T3;
      [injection H as <- <-; left; reflexivity |].
    match type of H with
    | run_then_exit _ h ?st = _ =>
        pose proof (run_then_exit_registered (tracked_run env_info) h st)
          as Hreg;
        destruct (tracked_run env_info h st) as [r2 s2] eqn:Hbody
    end.
    rewrite H in Hreg. cbn [snd] in Hreg. rewrite Hreg.
    apply tracked_run_registers in Hbody as [Hsame | [Hall _]].
    + left. rewrite Hsame. reflexivity.
    + right. unfold setup_ops. repeat (constructor; [assumption |]).
      exact Hall.
  - rewrite (train_model_probe_raises _ _ _ _ Hd) in H.
    injection H as <- <-. left.
    rewrite (detect_preserves_mlflow _ _ _ _ Hd). reflexivity.
Qed.

End Training.

(** * The properties on concrete runs *)

(** The small library has the documented shapes. *)
#[global] Instance toy_shapes : @SklearnShapes Toy.sklearn.
Proof.
  split.
  - intros n_samples n_features n_informative n_redundant n_classes rs.
    cbn. rewrite !length_map, length_seq. auto.
  - intros rs y n_train n_test Hle. cbn. rewrite !length_seq.
    repeat split; apply Forall_forall; intros i Hi;
      apply elem_of_seq in Hi; lia.
Qed.


Lemma cpu_host_runs :
  train_model Toy.cpu_host initial_store =
  (Returns (180 # 200)%Q, (train_model Toy.cpu_host initial_store).2).
Proof. vm_compute. reflexivity. Qed.

Lemma gpu_host_runs :
  train_model Toy.gpu_host initial_store =
  (Returns (180 # 200)%Q, (train_model Toy.gpu_host initial_store).2).
Proof. vm_compute. reflexivity. Qed.


Lemma gpu_host_probe :
  detect_compute_environment Toy.gpu_host initial_store =
  (Returns (cuda_env Toy.gpu_host),
   (detect_compute_environment Toy.gpu_host initial_store).2).
Proof. vm_compute. reflexivity. Qed.

Lemma cpu_host_probe :
  detect_compute_environment Toy.cpu_host initial_store =
  (Returns (no_gpu_env Toy.cpu_host),
   (detect_compute_environment Toy.cpu_host initial_store).2).
Proof. vm_compute. reflexivity. Qed.


(** C10 on the GPU host: the record says [True] and ['CUDA']. *)
Lemma gpu_fields_set_together_witness :
  (cuda_env Toy.gpu_host !! "gpu_available" = Some (PyBool true) <->
   cuda_env Toy.gpu_host !! "gpu_type" = Some (PyStr "CUDA")) /\
  (cuda_env Toy.gpu_host !! "gpu_available" = Some (PyBool false) <->
   cuda_env Toy.gpu_host !! "gpu_type" = Some PyNone) /\
  (cuda_env Toy.gpu_host !! "gpu_available" = Some (PyBool true) \/
   cuda_env Toy.gpu_host !! "gpu_available" = Some (PyBool false)).
Proof.
  exact (gpu_fields_set_together Toy.gpu_host initial_store _ _ gpu_host_probe).
Defined.




(** C7 as the claim states it fails: tensorflow imports, its device query
    raises [ImportError], and torch is imported all the same. *)
Lemma torch_probed_after_tensorflow_imported :
  import_tensorflow Toy.partial_tensorflow_host = None /\
  EvImport "torch"
  ∈ events
      (detect_compute_environment Toy.partial_tensorflow_host initial_store).2.
Proof.
  split; [reflexivity |].
  assert (events
            (detect_compute_environment Toy.partial_tensorflow_host
               initial_store).2
          = [EvImport "tensorflow"; EvListPhysicalDevices "GPU";
             EvImport "torch"; EvCudaIsAvailable]) as ->
    by (vm_compute; reflexivity).
  apply elem_of_cons. right. apply elem_of_cons. right.
  apply elem_of_cons. left. reflexivity.
Qed.

(** C7 as the code has it, on that host. *)
Lemma probe_order_and_shape_witness :
  exists rest,
    events
      (detect_compute_environment Toy.partial_tensorflow_host initial_store).2
    = events initial_store ++ EvImport "tensorflow" :: rest /\
    (EvImport "torch" ∈ rest <->
     exists e, tensorflow_probe_raises Toy.partial_tensorflow_host e /\
               isinstance_ImportError e = true) /\
    (forall env,
       (detect_compute_environment Toy.partial_tensorflow_host
          initial_store).1 = Returns env ->
       dom env = env_info_keys).
Proof.
  apply (probe_order_and_shape Toy.partial_tensorflow_host initial_store).
  apply surjective_pairing.
Defined.



(** C2 on the CPU host. *)
Lemma split_is_800_200_witness :
  metrics (mlflow (train_model Toy.cpu_host initial_store).2)
    !! "train_samples" = Some 800%Q /\
  metrics (mlflow (train_model Toy.cpu_host initial_store).2)
    !! "test_samples" = Some 200%Q.
Proof.
  exact (proj2 (split_is_800_200 Toy.cpu_host initial_store)
           _ _ cpu_host_runs).
Defined.


(** C4 on the CPU host, and on 200 predictions that are all wrong. *)
Lemma accuracy_in_unit_interval_witness :
  (exists a,
     accuracy_score (replicate 200 1) (replicate 200 0) Toy.cpu_host
       initial_store = (Returns a, initial_store) /\
     (0 <= a)%Q /\ (a <= 1)%Q) /\
  (0 <= 180 # 200)%Q /\ (180 # 200 <= 1)%Q.
Proof.
  split.
  - apply (proj1 accuracy_in_unit_interval); reflexivity.
  - exact (proj2 accuracy_in_unit_interval _ _ _ _ cpu_host_runs).
Defined.

(** C8 on the CPU host and the GPU host. *)
Lemma training_ignores_gpu_detection_witness :
  (180 # 200)%Q = (180 # 200)%Q /\
  exists model,
    n_estimators model = 100 /\ max_depth model = 10 /\
    random_state model = Some 42%Z /\
    registered_models (mlflow (train_model Toy.cpu_host initial_store).2) =
      registered_models (mlflow initial_store)
      ++ [("random_forest_model", "universal-ml-model", model)] /\
    registered_models (mlflow (train_model Toy.gpu_host initial_store).2) =
      registered_models (mlflow initial_store)
      ++ [("random_forest_model", "universal-ml-model", model)].
Proof.
  exact (proj2 training_ignores_gpu_detection _ _ _ _ _ _ _ _
           cpu_host_runs gpu_host_runs).
Defined.

Lemma offline_host_probe :
  detect_compute_environment Toy.offline_host initial_store =
  (Returns (no_gpu_env Toy.offline_host),
   (detect_compute_environment Toy.offline_host initial_store).2).
Proof. vm_compute. reflexivity. Qed.

(** C9 on the host without a tracking server: the variable is unset, the
    default endpoint is selected, the first operation that talks to the
    server fails and the process ends with an uncaught error. *)
Lemma tracking_failure_is_fatal_witness :
  selected_uri Toy.offline_host = "http://localhost:5000" /\
  exists e' s',
    train_model Toy.offline_host initial_store = (Raises e', s') /\
    (initial_store = initial_store ->
     run_script Toy.offline_host = (UncaughtException e', s')) /\
    (e' = ConnectionError \/
     (SetExperiment "universal-ml-experiment" ∈ body_ops /\
      tracking_service Toy.offline_host (EndRun FAILED) = Some e')).
Proof.
  split.
  - apply (proj1 (tracking_failure_is_fatal Toy.offline_host)). reflexivity.
  - apply (proj2 (proj2 (proj2 (tracking_failure_is_fatal Toy.offline_host)))
             initial_store _ _ _ _ toy_shapes offline_host_probe).
    reflexivity.
Defined.

(** ** The further properties on concrete runs *)

Lemma flaky_host_runs :
  train_model Toy.flaky_host initial_store =
  (Raises MlflowException, (train_model Toy.flaky_host initial_store).2).
Proof. vm_compute. reflexivity. Qed.


(** X1 on the GPU host: tensorflow lists a device, the record says so. *)
Lemma gpu_reported_exactly_when_witness :
  cuda_env Toy.gpu_host !! "gpu_available" = Some (PyBool true) <->
  (import_tensorflow Toy.gpu_host = None /\
   exists devices,
     tf_list_physical_devices Toy.gpu_host = inr devices /\ devices <> [])
  \/
  ((exists e, tensorflow_probe_raises Toy.gpu_host e /\
              isinstance_ImportError e = true) /\
   import_torch Toy.gpu_host = None /\
   torch_cuda_is_available Toy.gpu_host = inr true).
Proof.
  exact (gpu_reported_exactly_when Toy.gpu_host initial_store _ _
           gpu_host_probe).
Defined.

(** X2 on the CPU host: one notice, the tracking store untouched. *)
Lemma probe_prints_one_notice_witness :
  mlflow (detect_compute_environment Toy.cpu_host initial_store).2
  = mlflow initial_store /\
  exists line,
    console (detect_compute_environment Toy.cpu_host initial_store).2
    = console initial_store ++ [line].
Proof.
  exact (probe_prints_one_notice Toy.cpu_host initial_store _ _
           cpu_host_probe).
Defined.

(** X3 on the host whose tensorflow imports and whose device query raises
    [ImportError]: all four calls are made, in order. *)
Lemma probe_queries_follow_imports_witness :
  exists evs,
    events
      (detect_compute_environment Toy.partial_tensorflow_host initial_store).2
    = events initial_store ++ evs /\
    evs `sublist_of`
      [EvImport "tensorflow"; EvListPhysicalDevices "GPU";
       EvImport "torch"; EvCudaIsAvailable] /\
    (EvListPhysicalDevices "GPU" ∈ evs ->
     import_tensorflow Toy.partial_tensorflow_host = None) /\
    (EvCudaIsAvailable ∈ evs ->
     import_torch Toy.partial_tensorflow_host = None).
Proof.
  apply (probe_queries_follow_imports Toy.partial_tensorflow_host
           initial_store _
           (detect_compute_environment Toy.partial_tensorflow_host
              initial_store).1).
  apply surjective_pairing.
Defined.

(** X4 on the host that rejects the second metric. *)
Lemma tracking_calls_in_order_witness :
  exists probe_calls calls,
    events (detect_compute_environment Toy.flaky_host initial_store).2
    = events initial_store ++ probe_calls /\
    events (train_model Toy.flaky_host initial_store).2
    = events initial_store ++ probe_calls ++ map EvTracking calls /\
    run_calls_ok Toy.flaky_host calls /\
    (forall a : Q, Raises MlflowException = Returns a ->
                   calls = tracking_ops Toy.flaky_host).
Proof.
  exact (tracking_calls_in_order Toy.flaky_host initial_store _ _
           flaky_host_runs).
Defined.

(** X5 on that host: the run is not recorded FINISHED and, ending the run
    being possible there, it is not left active. *)
Lemma run_is_ended_as_it_went_witness :
  (ended_runs (mlflow (train_model Toy.flaky_host initial_store).2)
   = ended_runs (mlflow initial_store) \/
   ended_runs (mlflow (train_model Toy.flaky_host initial_store).2)
   = ended_runs (mlflow initial_store) ++ [FAILED]) /\
  (active_run (mlflow (train_model Toy.flaky_host initial_store).2) = false \/
   active_run (mlflow (train_model Toy.flaky_host initial_store).2)
   = active_run (mlflow initial_store)).
Proof.
  destruct (run_is_ended_as_it_went Toy.flaky_host initial_store _ _
              flaky_host_runs) as [Hended Hactive].
  split; [exact Hended | exact (Hactive eq_refl eq_refl)].
Defined.



Lemma cpu_host_script :
  run_script Toy.cpu_host =
  (ExitSuccess, (train_model Toy.cpu_host initial_store).2).
Proof. vm_compute. reflexivity. Qed.

(** X8 on the CPU host. *)
Lemma successful_run_record_witness :
  experiment (mlflow (train_model Toy.cpu_host initial_store).2)
  = Some "universal-ml-experiment" /\
  dom (params (mlflow (train_model Toy.cpu_host initial_store).2))
  = env_info_keys /\
  dom (metrics (mlflow (train_model Toy.cpu_host initial_store).2))
  = {[ "accuracy"; "train_samples"; "test_samples" ]} /\
  (exists a,
     train_model Toy.cpu_host initial_store
     = (Returns a, (train_model Toy.cpu_host initial_store).2) /\
     metrics (mlflow (train_model Toy.cpu_host initial_store).2)
       !! "accuracy" = Some a) /\
  exists model,
    registered_models (mlflow (train_model Toy.cpu_host initial_store).2)
    = [("random_forest_model", "universal-ml-model", model)].
Proof.
  exact (successful_run_record Toy.cpu_host _ cpu_host_script).
Defined.


(** X10 on the host that rejects the second metric. *)
Lemma model_registered_only_after_metrics_witness :
  registered_models (mlflow (train_model Toy.flaky_host initial_store).2)
  = registered_models (mlflow initial_store) \/
  Forall (fun op => tracking_service Toy.flaky_host op = None)
    (setup_ops Toy.flaky_host ++ body_ops).
Proof.
  exact (model_registered_only_after_metrics Toy.flaky_host initial_store _ _
           flaky_host_runs).
Defined.
